(** * BudgetTracker: a shallow embedding of [BudgetTracker.py]

    The development follows the Python source top to bottom: the
    [Transaction] dataclass with its [__post_init__] validation, the
    [BudgetTracker] class ([load], [save], [add_transaction], [set_limit],
    [summary], [months]) and, underneath both, the part of
    [datetime.strptime] that the two format strings ["%Y-%m-%d"] and
    ["%Y-%m"] exercise.

    Modelling choices.
    - Python [str] is [string]; a character is a code point below 256.  In
      that range the decimal digits (regex class [\d]) are exactly
      ["0"] .. ["9"].
    - [amount] and the limits are numbers of an arbitrary type [num] that
      offers what the source uses: the literal [0], the builtin [sum], [-],
      [<] and [<=] (class [Number]).  Instances are given for [Z] (Python
      [int]) and for binary64 floats (Python [float]).
    - A method is a function from the world (the object [self] and the
      files on disk) to an outcome and the world it leaves behind, so that
      what a raising call has already mutated stays visible.
    - The persisted file is modelled at the level of the value that
      [json.dump] receives and [json.load] returns; that [json.load] gives
      back what [json.dump] wrote is taken from the [json] module.  A dict
      is a finite map: the order of its keys is not modelled.
    - Writing a file can fail, before or after the file has been emptied;
      which paths fail, and how, is a parameter (class [FileSystem]).
    - The shell ([prompt_float], [prompt_date], [main]) runs on the list
      of the lines typed and records what it writes. *)

From Stdlib Require Import ZArith Ascii String List Bool Lia Floats.
From Stdlib Require DecimalString.
From stdpp Require Import base option list strings gmap sorting.

Local Open Scope Z_scope.

(** * Numbers *)

Class Number (num : Type) := {
  num_zero : num;
  num_sum : list num -> num;
  num_sub : num -> num -> num;
  num_lt : num -> num -> bool;
  num_le : num -> num -> bool
}.

(** [sum(iterable)] starts from [0] and adds from the left. *)
#[export] Instance Number_Z : Number Z := {|
  num_zero := 0;
  num_sum l := fold_left Z.add l 0;
  num_sub := Z.sub;
  num_lt := Z.ltb;
  num_le := Z.leb
|}.

(** The same running total, rounded at each step: [sum] on floats as
    CPython forms it up to version 3.11 (later versions compensate the
    rounding).  Only one run on a concrete world uses it. *)
#[export] Instance Number_float : Number float := {|
  num_zero := PrimFloat.zero;
  num_sum l := fold_left PrimFloat.add l PrimFloat.zero;
  num_sub := PrimFloat.sub;
  num_lt := PrimFloat.ltb;
  num_le := PrimFloat.leb
|}.

(** * Text *)

Definition code (c : ascii) : Z := Z.of_N (N_of_ascii c).

Definition in_range (lo hi c : ascii) : bool :=
  (code lo <=? code c) && (code c <=? code hi).

(** [s.startswith(p)] *)
Fixpoint startswith (s p : string) : bool :=
  match p, s with
  | EmptyString, _ => true
  | String a p', String b s' => if decide (a = b) then startswith s' p' else false
  | String _ _, EmptyString => false
  end.

(** [s[:n]] *)
Fixpoint slice_to (n : nat) (s : string) : string :=
  match n, s with
  | S n', String c s' => String c (slice_to n' s')
  | _, _ => EmptyString
  end.

(** [int(s)] on the texts the date patterns capture: decimal digits,
    possibly after a blank, which [int] skips. *)
Definition int_step (acc : Z) (c : ascii) : Z :=
  if in_range "0" "9" c then 10 * acc + (code c - 48) else acc.

Fixpoint int_from (acc : Z) (s : string) : Z :=
  match s with
  | EmptyString => acc
  | String c s' => int_from (int_step acc c) s'
  end.

Definition int (s : string) : Z := int_from 0 s.

(** * Outcomes *)

(** [ValueError] is what the validation raises; [OSError] stands for what
    the file system raises ([FileNotFoundError], [PermissionError], ...). *)
Inductive exn := ValueError | OSError.

Inductive outcome (A : Type) :=
  | Ok (a : A)
  | Raise (e : exn).
Arguments Ok {A} a.
Arguments Raise {A} e.

Definition raises {A} (o : outcome A) : Prop :=
  match o with Raise _ => True | Ok _ => False end.

(** * [datetime.strptime]

    The source validates every date and month with [datetime.strptime],
    which is CPython's [Lib/_strptime.py].  It turns the format into a
    regular expression, one group per directive (the table of [TimeRE],
    quoted at each group below), and runs [re.match]: a backtracking
    matcher that tries the alternatives of a group from left to right and
    keeps the first way to match the whole pattern at the start of the
    text.  A matcher below returns every way to match, the engine's first
    choice first, each with the text matched and the text left over. *)

Definition matcher := string -> list (string * string).

(** one character of the class [[lo-hi]] *)
Definition chr (lo hi : ascii) : matcher := fun s =>
  match s with
  | String c r => if in_range lo hi c then [(String c EmptyString, r)] else []
  | EmptyString => []
  end.

Definition seq (p q : matcher) : matcher := fun s =>
  '(a, r) ← p s; '(b, r') ← q r; [(a +:+ b, r')].

Definition alt (p q : matcher) : matcher := fun s => p s ++ q s.

Definition digit : matcher := chr "0" "9".

(** ['Y': r"(?P<Y>\d\d\d\d)"] *)
Definition re_Y : matcher := seq digit (seq digit (seq digit digit)).

(** ['m': r"(?P<m>1[0-2]|0[1-9]|[1-9])"] *)
Definition re_m : matcher :=
  alt (seq (chr "1" "1") (chr "0" "2"))
 (alt (seq (chr "0" "0") (chr "1" "9"))
      (chr "1" "9")).

(** ['d': r"(?P<d>3[0-1]|[1-2]\d|0[1-9]|[1-9]| [1-9])"] *)
Definition re_d : matcher :=
  alt (seq (chr "3" "3") (chr "0" "1"))
 (alt (seq (chr "1" "2") digit)
 (alt (seq (chr "0" "0") (chr "1" "9"))
 (alt (chr "1" "9")
      (seq (chr " " " ") (chr "1" "9"))))).

Inductive directive := Dir_Y | Dir_m | Dir_d | Lit (c : ascii).

#[export] Instance directive_eq_dec : EqDecision directive.
Proof. solve_decision. Defined.

Definition re_of (d : directive) : matcher :=
  match d with
  | Dir_Y => re_Y
  | Dir_m => re_m
  | Dir_d => re_d
  | Lit c => chr c c
  end.

(** The groups found, by directive, and the text after the match. *)
Fixpoint re_match (fmt : list directive) (s : string)
  : list (list (directive * string) * string) :=
  match fmt with
  | [] => [([], s)]
  | d :: fmt' =>
      '(a, r) ← re_of d s; '(groups, r') ← re_match fmt' r; [((d, a) :: groups, r')]
  end.

Fixpoint group (d : directive) (groups : list (directive * string)) : option string :=
  match groups with
  | [] => None
  | (d', a) :: groups' => if decide (d = d') then Some a else group d groups'
  end.

(** ["%Y-%m-%d"] and ["%Y-%m"] *)
Definition fmt_Y_m_d : list directive := [Dir_Y; Lit "-"; Dir_m; Lit "-"; Dir_d].
Definition fmt_Y_m : list directive := [Dir_Y; Lit "-"; Dir_m].

(** [datetime._is_leap], [datetime._days_in_month] and the range checks of
    [datetime.date(year, month, day)]. *)
Definition is_leap (year : Z) : bool :=
  (year mod 4 =? 0) && (negb (year mod 100 =? 0) || (year mod 400 =? 0)).

Definition DAYS_IN_MONTH : list Z := [-1; 31; 28; 31; 30; 31; 30; 31; 31; 30; 31; 30; 31].

Definition days_in_month (year month : Z) : Z :=
  if (month =? 2) && is_leap year then 29
  else nth (Z.to_nat month) DAYS_IN_MONTH (-1).

Definition check_date_fields (year month day : Z) : bool :=
  (1 <=? year) && (year <=? 9999) && (1 <=? month) && (month <=? 12)
  && (1 <=? day) && (day <=? days_in_month year month).

(** [datetime.strptime(data_string, format)]: no match, text left after
    the match, or a date that does not exist raise [ValueError]; a missing
    group takes its default (year 1900, month 1, day 1). *)
Definition strptime (data_string : string) (fmt : list directive) : outcome (Z * Z * Z) :=
  match re_match fmt data_string with
  | [] => Raise ValueError
  | (groups, rest) :: _ =>
      if decide (rest = EmptyString) then
        let year := default 1900 (int <$> group Dir_Y groups) in
        let month := default 1 (int <$> group Dir_m groups) in
        let day := default 1 (int <$> group Dir_d groups) in
        if check_date_fields year month day then Ok (year, month, day)
        else Raise ValueError
      else Raise ValueError
  end.

(** * The file system

    [open(path, "w")] may raise, and so may a write of [json.dump] to the
    file opened.  Whether they do is a matter of the file system the
    program runs on, which is fixed for a run: a path is written without
    error, or it cannot be opened for writing, or it is opened, which
    empties the file, and the writing breaks off. *)

(** [e] is what is raised. *)
Inductive fault :=
  | CannotOpen (e : exn)
  | CannotWrite (e : exn).

Class FileSystem := {
  write_fault : string -> option fault;
  (** no file has the empty name: [open("", "w")] raises
      [FileNotFoundError] *)
  write_fault_empty : write_fault EmptyString = Some (CannotOpen OSError)
}.

(** * The program *)

Section Program.
Context {num : Type} `{Number num} `{FileSystem}.

(** ** [class Transaction] *)

Record Transaction := {
  type : string;
  amount : num;
  date : string;
  description : string
}.

(** [Transaction.__init__] followed by [__post_init__]. *)
Definition Transaction_init (ttype : string) (amt : num) (dt desc : string)
  : outcome Transaction :=
  let self := {| type := ttype; amount := amt; date := dt; description := desc |} in
  if negb (bool_decide (type self ∈ ["income"; "expense"])) || num_lt (amount self) num_zero
  then Raise ValueError
  else match strptime (date self) fmt_Y_m_d with
       | Raise e => Raise e
       | Ok _ => Ok self
       end.

(** ** The file

    [asdict(t)] is a dict of the four fields; the document written is a
    dict of the list of these and of the limits.  A file holds either such
    a document, with fields of the annotated types and whatever values, or
    content that makes the body of the [try] in [load] raise before any
    entry is looked at: text that [json.load] rejects, or JSON of another
    shape ([NotJson]).  Since [load] reads the two keys with
    [data.get(key, default)], a document may lack either. *)

Record tdict := {
  d_type : string;
  d_amount : num;
  d_date : string;
  d_description : string
}.

Record document := {
  doc_transactions : option (list tdict);
  doc_expense_limits : option (gmap string num)
}.

Inductive file_text :=
  | NotJson
  | Json (data : document).

Definition asdict (t : Transaction) : tdict :=
  {| d_type := type t; d_amount := amount t; d_date := date t;
     d_description := description t |}.

(** [Transaction( **t )] *)
Definition Transaction_of_dict (t : tdict) : outcome Transaction :=
  Transaction_init (d_type t) (d_amount t) (d_date t) (d_description t).

(** ** [class BudgetTracker] *)

Definition DATA_FILE : string := "budget_data.json".

Record BudgetTracker := {
  data_file : string;
  transactions : list Transaction;
  expense_limits : gmap string num
}.

Record world := {
  self : BudgetTracker;
  disk : gmap string file_text
}.

(** A method: the outcome and the world after it. *)
Definition M (A : Type) : Type := world -> outcome A * world.

Definition ret {A} (a : A) : M A := fun w => (Ok a, w).

Definition raise {A} (e : exn) : M A := fun w => (Raise e, w).

Definition bind {A B} (m : M A) (k : A -> M B) : M B := fun w =>
  match m w with
  | (Ok a, w') => k a w'
  | (Raise e, w') => (Raise e, w')
  end.

(** [try: body  except: handler] with a bare [except]. *)
Definition try_except {A} (body handler : M A) : M A := fun w =>
  match body w with
  | (Ok a, w') => (Ok a, w')
  | (Raise _, w') => handler w'
  end.

(** A computation that touches neither [self] nor the disk. *)
Definition lift {A} (o : outcome A) : M A := fun w => (o, w).

Definition get_self : M BudgetTracker := fun w => (Ok (self w), w).

Definition set_transactions (ts : list Transaction) : M unit := fun w =>
  (Ok tt, {| self := {| data_file := data_file (self w); transactions := ts;
                        expense_limits := expense_limits (self w) |};
             disk := disk w |}).

Definition set_expense_limits (ls : gmap string num) : M unit := fun w =>
  (Ok tt, {| self := {| data_file := data_file (self w);
                        transactions := transactions (self w);
                        expense_limits := ls |};
             disk := disk w |}).

Definition read_file (path : string) : M (option file_text) := fun w =>
  (Ok (disk w !! path), w).

(** [with open(path, "w") as f: json.dump(data, f, indent=4)].  When
    [open] raises, nothing is written.  When the writing breaks off, the
    file holds the beginning of a document only, which [json.load]
    rejects. *)
Definition write_file (path : string) (txt : file_text) : M unit := fun w =>
  match write_fault path with
  | None => (Ok tt, {| self := self w; disk := <[path := txt]> (disk w) |})
  | Some (CannotOpen e) => (Raise e, w)
  | Some (CannotWrite e) =>
      (Raise e, {| self := self w; disk := <[path := NotJson]> (disk w) |})
  end.

End Program.

Arguments Transaction num : clear implicits.
Arguments tdict num : clear implicits.
Arguments document num : clear implicits.
Arguments file_text num : clear implicits.
Arguments BudgetTracker num : clear implicits.
Arguments world num : clear implicits.
Arguments M num A : clear implicits.

Declare Scope method_scope.
Delimit Scope method_scope with method.
Notation "x <- m ;; k" := (bind m (fun x => k))
  (at level 100, m at next level, right associativity) : method_scope.
Notation "m ;; k" := (bind m (fun _ => k))
  (at level 100, right associativity) : method_scope.

Section Methods.
Context {num : Type} `{Number num} `{FileSystem}.
Local Open Scope method_scope.

(** [json.load(f)] *)
Definition json_load (txt : file_text num) : M num (document num) :=
  match txt with
  | NotJson => raise ValueError
  | Json data => ret data
  end.

(** [[Transaction( **t ) for t in ts]] *)
Fixpoint Transactions_of_dicts (ts : list (tdict num)) : outcome (list (Transaction num)) :=
  match ts with
  | [] => Ok []
  | t :: ts' =>
      match Transaction_of_dict t with
      | Raise e => Raise e
      | Ok x =>
          match Transactions_of_dicts ts' with
          | Raise e => Raise e
          | Ok xs => Ok (x :: xs)
          end
      end
  end.

Definition load : M num unit :=
  me <- get_self;;
  f <- read_file (data_file me);;
  match f with
  | None => ret tt
  | Some txt =>
      try_except
        (data <- json_load txt;;
         ts <- lift (Transactions_of_dicts (default [] (doc_transactions data)));;
         set_transactions ts;;
         set_expense_limits (default ∅ (doc_expense_limits data)))
        (set_transactions [];;
         set_expense_limits ∅)
  end.

(** [BudgetTracker(data_file)]: [__init__] run against the files on disk. *)
Definition BudgetTracker_init (path : string) (files : gmap string (file_text num))
  : outcome unit * world num :=
  load {| self := {| data_file := path; transactions := []; expense_limits := ∅ |};
          disk := files |}.

(** The dict handed to [json.dump].  A dict is a finite map here: the
    order in which Python keeps its keys, and [json.dump] writes them, is
    not part of the model. *)
Definition document_of (me : BudgetTracker num) : document num :=
  {| doc_transactions := Some (asdict <$> transactions me);
     doc_expense_limits := Some (expense_limits me) |}.

(** [save] raises what the writing raises; what the caller has already
    changed in [self] stays changed. *)
Definition save : M num unit :=
  me <- get_self;;
  write_file (data_file me) (Json (document_of me)).

Definition add_transaction (ttype : string) (amt : num) (dt desc : string) : M num unit :=
  t <- lift (Transaction_init ttype amt dt desc);;
  me <- get_self;;
  set_transactions (transactions me ++ [t]);;
  save.

Definition set_limit (month : string) (limit : num) : M num unit :=
  lift (strptime month fmt_Y_m);;
  me <- get_self;;
  set_expense_limits (<[month := limit]> (expense_limits me));;
  save.

(** The dict that [summary] returns. *)
Record Summary := {
  s_month : string;
  s_income : num;
  s_expense : num;
  s_balance : num;
  s_limit : option num;
  s_status : string
}.

(** [sum(t.amount for t in ts if t.type == kind and t.date.startswith(month))] *)
Definition total (kind month : string) (ts : list (Transaction num)) : num :=
  num_sum (amount <$>
        filter (fun t => bool_decide (type t = kind) && startswith (date t) month = true) ts).

(** [summary(month)]; [now] is what [datetime.now().strftime("%Y-%m")]
    returns at the time of the call. *)
Definition summary (now : string) (month : option string) : M num Summary :=
  let month := match month with None => now | Some m => m end in
  lift (strptime month fmt_Y_m);;
  me <- get_self;;
  let inc := total "income" month (transactions me) in
  let exp := total "expense" month (transactions me) in
  let bal := num_sub inc exp in
  let limit := expense_limits me !! month in
  let status :=
    match limit with
    | None => "No limit set"
    | Some l => if num_le exp l then "Within limit" else "Limit exceeded"
    end in
  ret {| s_month := month; s_income := inc; s_expense := exp; s_balance := bal;
         s_limit := limit; s_status := status |}.

(** [sorted({t.date[:7] for t in self.transactions})]: the set is a finite
    set of strings, [sorted] orders its elements by [<=] on strings. *)
Definition sorted (s : gset string) : list string :=
  merge_sort String.le (elements s).

Definition months : M num (list string) :=
  me <- get_self;;
  ret (sorted (list_to_set ((fun t => slice_to 7 (date t)) <$> transactions me))).

End Methods.

Arguments Summary num : clear implicits.

(** * What the texts are

    Two readings of "a date" and "a month".  The first pair is the strict
    pattern of the specification: [YYYY-MM-DD] and [YYYY-MM], every field
    zero-padded to its full width, for the years 0001 to 9999 of the
    calendar.  The second pair is what the regular expressions of
    [strptime] take: the month and the day may also be written without the
    leading zero, and the day as a blank and a digit. *)

Definition is_digit (c : ascii) : bool := in_range "0" "9" c.

Fixpoint all_digits (s : string) : bool :=
  match s with
  | EmptyString => true
  | String c s' => is_digit c && all_digits s'
  end.

Definition year_text (Y : string) : bool :=
  all_digits Y && bool_decide (String.length Y = 4%nat).

(** [w] digits *)
Definition padded (w : nat) (a : string) : bool :=
  all_digits a && bool_decide (String.length a = w).

(** one or two digits with a value from 1 to [hi] *)
Definition short_or_padded (hi : Z) (a : string) : bool :=
  all_digits a
  && (bool_decide (String.length a = 1%nat) || bool_decide (String.length a = 2%nat))
  && (1 <=? int a) && (int a <=? hi).

Definition month_text (M : string) : bool := short_or_padded 12 M.

Definition blank_digit (a : string) : bool :=
  match a with
  | String b (String c EmptyString) => bool_decide (b = " "%char) && in_range "1" "9" c
  | _ => false
  end.

Definition day_text (D : string) : bool := short_or_padded 31 D || blank_digit D.

(** The strict patterns, field by field at fixed positions. *)
Definition YYYY_MM (s : string) : bool :=
  let Y := substring 0 4 s in
  let M := substring 5 2 s in
  bool_decide (String.length s = 7%nat)
  && year_text Y && (1 <=? int Y)
  && bool_decide (substring 4 1 s = "-")
  && padded 2 M && (1 <=? int M) && (int M <=? 12).

Definition YYYY_MM_DD (s : string) : bool :=
  let Y := substring 0 4 s in
  let M := substring 5 2 s in
  let D := substring 8 2 s in
  bool_decide (String.length s = 10%nat)
  && year_text Y && (1 <=? int Y)
  && bool_decide (substring 4 1 s = "-")
  && padded 2 M && (1 <=? int M) && (int M <=? 12)
  && bool_decide (substring 7 1 s = "-")
  && padded 2 D && (1 <=? int D) && (int D <=? days_in_month (int Y) (int M)).

(** What [strptime] takes for ["%Y-%m"] and for ["%Y-%m-%d"]. *)
Definition accepted_month (s : string) : Prop :=
  exists Y M : string,
    s = Y +:+ "-" +:+ M
    /\ year_text Y = true /\ month_text M = true /\ 1 <= int Y.

Definition accepted_date (s : string) : Prop :=
  exists Y M D : string,
    s = Y +:+ "-" +:+ M +:+ "-" +:+ D
    /\ year_text Y = true /\ month_text M = true /\ day_text D = true
    /\ 1 <= int Y /\ int D <= days_in_month (int Y) (int M).

Definition tag (kind : string) : Prop := kind = "income" \/ kind = "expense".

Section Readings.
Context {num : Type} `{Number num}.

(** A transaction, or a dict of a document, that passes [__post_init__]. *)
Definition valid (ttype : string) (amt : num) (dt : string) : Prop :=
  tag ttype /\ num_lt amt num_zero = false /\ accepted_date dt.

Definition valid_transaction (t : Transaction num) : Prop :=
  valid (type t) (amount t) (date t).

Definition valid_dict (t : tdict num) : Prop :=
  valid (d_type t) (d_amount t) (d_date t).

(** A document is well formed when each of its entries is valid. *)
Definition well_formed (data : document num) : Prop :=
  Forall valid_dict (default [] (doc_transactions data)).

(** The specification's reading of [summary]: first the transactions of
    the month, by the seven-character prefix of the date, then those of
    one kind. *)
Definition of_month (month : string) (ts : list (Transaction num)) : list (Transaction num) :=
  filter (fun t => slice_to 7 (date t) = month) ts.

Definition of_kind (kind : string) (ts : list (Transaction num)) : list (Transaction num) :=
  filter (fun t => type t = kind) ts.

Definition empty_tracker (path : string) : BudgetTracker num :=
  {| data_file := path; transactions := []; expense_limits := ∅ |}.

End Readings.

(** ** The texts, listed

    Used to run the matchers: every month text and every day text. *)

Definition digit_chars : list ascii :=
  ["0"; "1"; "2"; "3"; "4"; "5"; "6"; "7"; "8"; "9"]%char.

Definition month_texts : list string :=
  ["1"; "2"; "3"; "4"; "5"; "6"; "7"; "8"; "9";
   "01"; "02"; "03"; "04"; "05"; "06"; "07"; "08"; "09"; "10"; "11"; "12"].

Definition day_texts : list string :=
  ["1"; "2"; "3"; "4"; "5"; "6"; "7"; "8"; "9";
   "01"; "02"; "03"; "04"; "05"; "06"; "07"; "08"; "09"; "10";
   "11"; "12"; "13"; "14"; "15"; "16"; "17"; "18"; "19"; "20";
   "21"; "22"; "23"; "24"; "25"; "26"; "27"; "28"; "29"; "30"; "31";
   " 1"; " 2"; " 3"; " 4"; " 5"; " 6"; " 7"; " 8"; " 9"].

(** [strptime] once the year has been read: the rest of the format has
    run on the rest of the text and [found] is what it gave. *)
Definition after_year (year : Z) (found : list (list (directive * string) * string))
  : outcome (Z * Z * Z) :=
  match found with
  | [] => Raise ValueError
  | (groups, rest) :: _ =>
      if decide (rest = EmptyString) then
        let month := default 1 (int <$> group Dir_m groups) in
        let day := default 1 (int <$> group Dir_d groups) in
        if check_date_fields year month day then Ok (year, month, day)
        else Raise ValueError
      else Raise ValueError
  end.

(** ** Runs of the program

    The worlds a program can build: it constructs a tracker over some
    files, then calls methods on it. *)

Section Runs.
Context {num : Type} `{Number num} `{FileSystem}.

Inductive step : world num -> world num -> Prop :=
  | step_add_transaction ttype amt dt desc w :
      step w (snd (add_transaction ttype amt dt desc w))
  | step_set_limit month limit w :
      step w (snd (set_limit month limit w))
  | step_summary now month w :
      step w (snd (summary now month w))
  | step_months w :
      step w (snd (months w))
  | step_load w :
      step w (snd (load w)).

Inductive reachable : world num -> Prop :=
  | reachable_init path files :
      reachable (snd (BudgetTracker_init path files))
  | reachable_step w w' :
      reachable w -> step w w' -> reachable w'.

(** The invariant of the store: every transaction passed [__post_init__]. *)
Definition store_ok (w : world num) : Prop :=
  Forall valid_transaction (transactions (self w)).

End Runs.

(** ** Worlds to run on *)

(** A file system on which every file can be written but the one of the
    empty name. *)
Definition plain_files : FileSystem :=
  {| write_fault path :=
       if decide (path = EmptyString) then Some (CannotOpen OSError) else None;
     write_fault_empty := eq_refl |}.

(** One on which the data file can be opened, and writing to it breaks
    off. *)
Definition full_disk : FileSystem :=
  {| write_fault path :=
       if decide (path = EmptyString) then Some (CannotOpen OSError)
       else if decide (path = DATA_FILE) then Some (CannotWrite OSError)
       else None;
     write_fault_empty := eq_refl |}.

Section Worlds.
#[local] Existing Instance plain_files.

(** A fresh tracker, no file on disk; amounts are integers. *)
Definition w0 : world Z := {| self := empty_tracker DATA_FILE; disk := ∅ |}.

(** A tracker made with [BudgetTracker("")]. *)
Definition w_unnamed : world Z := {| self := empty_tracker EmptyString; disk := ∅ |}.

(** Income 1000 on 2024-01-05, then expense 400 on 2024-01-10. *)
Definition wA : world Z :=
  snd (add_transaction "expense" 400 "2024-01-10" "rent"
         (snd (add_transaction "income" 1000 "2024-01-05" "pay" w0))).

(** Then a limit of 300 for 2024-01. *)
Definition wB : world Z := snd (set_limit "2024-01" 300 wA).

(** A limit of 500 for 2024-02 and an expense of 500 on 2024-02-01. *)
Definition wC : world Z :=
  snd (add_transaction "expense" 500 "2024-02-01" "food"
         (snd (set_limit "2024-02" 500 w0))).

(** Transactions dated 2024-01-02 and 2024-03-15, in the other order. *)
Definition wD : world Z :=
  snd (add_transaction "income" 20 "2024-01-02" "b"
         (snd (add_transaction "expense" 10 "2024-03-15" "a" w0))).

(** October, November, December and January of 2024. *)
Definition w10 : world Z :=
  {| self :=
       {| data_file := DATA_FILE;
          transactions :=
            [ {| type := "expense"; amount := 7; date := "2024-10-05"; description := "a" |};
              {| type := "expense"; amount := 5; date := "2024-11-20"; description := "b" |};
              {| type := "income"; amount := 3; date := "2024-12-01"; description := "c" |};
              {| type := "expense"; amount := 1; date := "2024-01-15"; description := "d" |} ];
          expense_limits := ∅ |};
     disk := ∅ |}.

(** The first scenario again, on floats. *)
Definition wF : world float :=
  snd (set_limit "2024-01" 300%float
    (snd (add_transaction "expense" 400%float "2024-01-10" "rent"
      (snd (add_transaction "income" 1000%float "2024-01-05" "pay"
         {| self := empty_tracker DATA_FILE; disk := ∅ |}))))).

(** A date with the month and the day unpadded, after a padded one. *)
Definition wU : world Z :=
  snd (add_transaction "income" 1 "2024-1-5" "gift"
         (snd (add_transaction "income" 1000 "2024-01-05" "pay" w0))).

End Worlds.

(** * More readings of the store *)

(** [m] is the text of the first seven characters of [d], or all of [d]
    when [d] has fewer. *)
Definition first_seven (m d : string) : Prop :=
  exists rest,
    d = m +:+ rest
    /\ (String.length m = 7%nat
        \/ ((String.length m < 7)%nat /\ rest = EmptyString)).

(** A year, a dash, a month of one digit and a dash: the first seven
    characters of a date whose month is not padded. *)
Definition year_month_dash (m : string) : Prop :=
  exists (Y : string) (c : ascii),
    m = Y +:+ "-" +:+ String c "-"
    /\ year_text Y = true /\ in_range "1" "9" c = true.

Section StoreReadings.
Context {num : Type} `{Number num} `{FileSystem}.

(** The transaction with the fields of a dict. *)
Definition of_dict (d : tdict num) : Transaction num :=
  {| type := d_type d; amount := d_amount d; date := d_date d;
     description := d_description d |}.

(** The amounts that [summary] adds up for a kind and a month. *)
Definition counted (kind month : string) (ts : list (Transaction num)) : list num :=
  amount <$>
    filter (fun t => bool_decide (type t = kind) && startswith (date t) month = true) ts.

(** No limit below zero is stored. *)
Definition limits_ok (w : world num) : Prop :=
  map_Forall (fun _ limit => num_lt limit num_zero = false) (expense_limits (self w)).

(** Starting the program again on the files gives the world back. *)
Definition restarts (w : world num) : Prop :=
  BudgetTracker_init (data_file (self w)) (disk w) = (Ok tt, w).

(** The data file can be written. *)
Definition writable (w : world num) : Prop :=
  write_fault (data_file (self w)) = None.

(** The files other than the data file are as in [files]. *)
Definition elsewhere (files : gmap string (file_text num)) (w : world num) : Prop :=
  forall path, path <> DATA_FILE -> disk w !! path = files !! path.

Definition session_ok (w : world num) : Prop :=
  store_ok w /\ (writable w -> restarts w) /\ data_file (self w) = DATA_FILE.

(** What a turn of the menu may do to the world: one transaction added,
    or one limit set, by a call that returns or that raises in [save]. *)
Inductive world_turn : world num -> world num -> Prop :=
  | turn_add ttype amt dt desc w :
      valid ttype amt dt ->
      world_turn w (snd (add_transaction ttype amt dt desc w))
  | turn_limit month limit w :
      accepted_month month -> num_lt limit num_zero = false ->
      world_turn w (snd (set_limit month limit w)).

End StoreReadings.

(** * The shell

    [prompt_float], [prompt_date] and [main] talk to a terminal.  The
    lines typed are a list, read one by one; what is written is the list
    of prompts shown by [input] and of lines printed.  What Python turns
    numbers into text and text into numbers with, and the text of the
    errors of [strptime] and of the file system, come from outside the
    source (class [Console]). *)

Inductive event :=
  | Prompt (msg : string)
  | Print (line : string).

(** How a session ends: [main] returns after ["6"]; an [input] outside any
    [try] finds the end of the input and [EOFError] leaves [main];
    [prompt_float] loops for ever, because its bare [except] also catches
    the [EOFError] of its own [input]; or a method called outside any
    [try] raises. *)
Inductive ending :=
  | Exit
  | EOFError
  | Hang
  | Uncaught (e : exn).

Class Console (num : Type) := {
  (** [float(s)], [None] when it raises [ValueError] *)
  float_of_str : string -> option num;
  (** [f"{x:.2f}"] *)
  format_2f : num -> string;
  (** [f"{x}"] *)
  str_of_num : num -> string;
  (** [str(e)] for the [ValueError] that [strptime] raises on a text *)
  strptime_error : string -> list directive -> string;
  (** [str(e)] for what writing the file of a name raises *)
  write_error : string -> string
}.

(** [str.isspace] on a code point below 256 *)
Definition is_space (c : ascii) : bool :=
  ((9 <=? code c) && (code c <=? 13)) || ((28 <=? code c) && (code c <=? 32))
  || (code c =? 133) || (code c =? 160).

Fixpoint lstrip (s : string) : string :=
  match s with
  | EmptyString => EmptyString
  | String c r => if is_space c then lstrip r else s
  end.

Fixpoint rstrip (s : string) : string :=
  match s with
  | EmptyString => EmptyString
  | String c r =>
      match rstrip r with
      | EmptyString => if is_space c then EmptyString else String c EmptyString
      | r' => String c r'
      end
  end.

(** [s.strip()] *)
Definition strip (s : string) : string := rstrip (lstrip s).

Definition newline : string := String "010"%char EmptyString.

(** The format string a list of directives stands for. *)
Definition directive_text (d : directive) : string :=
  match d with
  | Dir_Y => "%Y"
  | Dir_m => "%m"
  | Dir_d => "%d"
  | Lit c => String c EmptyString
  end.

Fixpoint format_text (fmt : list directive) : string :=
  match fmt with
  | [] => EmptyString
  | d :: fmt' => directive_text d +:+ format_text fmt'
  end.

(** [", ".join(l)] *)
Fixpoint join (sep : string) (l : list string) : string :=
  match l with
  | [] => EmptyString
  | [a] => a
  | a :: l' => a +:+ sep +:+ join sep l'
  end.

Section Shell.
Context {num : Type} `{Number num} `{FileSystem} `{Console num}.

Record session := {
  state : world num;
  stdin : list string;
  stdout : list event
}.

(** The loop of [prompt_float] on the lines left: what it writes, and the
    value it returns with the lines then left, if it returns.  At the end
    of the input it prompts, catches, prints, and starts again without
    end: the writes of one round are recorded. *)
Fixpoint prompt_float_from (msg : string) (lines : list string)
  : list event * option (num * list string) :=
  match lines with
  | [] => ([Prompt msg; Print "Invalid number."], None)
  | l :: rest =>
      match float_of_str (strip l) with
      | None =>
          let '(out, r) := prompt_float_from msg rest in
          (Prompt msg :: Print "Invalid number." :: out, r)
      | Some val =>
          if num_lt val num_zero then
            let '(out, r) := prompt_float_from msg rest in
            (Prompt msg :: Print "Must be positive." :: out, r)
          else ([Prompt msg], Some (val, rest))
      end
  end.

(** The loop of [prompt_date]; its [input] is outside the [try]. *)
Fixpoint prompt_date_from (msg : string) (fmt : list directive) (lines : list string)
  : list event * option (string * list string) :=
  match lines with
  | [] => ([Prompt msg], None)
  | l :: rest =>
      let val := strip l in
      match strptime val fmt with
      | Ok _ => ([Prompt msg], Some (val, rest))
      | Raise _ =>
          let '(out, r) := prompt_date_from msg fmt rest in
          (Prompt msg :: Print ("Invalid format (" +:+ format_text fmt +:+ ").") :: out, r)
      end
  end.

(** A step of the shell: a value, or the end of the session. *)
Definition Sh (A : Type) : Type := session -> (A + ending) * session.

Definition sh_ret {A} (a : A) : Sh A := fun s => (inl a, s).

Definition sh_bind {A B} (m : Sh A) (k : A -> Sh B) : Sh B := fun s =>
  match m s with
  | (inl a, s') => k a s'
  | (inr e, s') => (inr e, s')
  end.

Definition stop {A} (e : ending) : Sh A := fun s => (inr e, s).

Definition write (out : list event) : Sh unit := fun s =>
  (inl tt, {| state := state s; stdin := stdin s; stdout := stdout s ++ out |}).

Definition print (line : string) : Sh unit := write [Print line].

(** [input(msg)] *)
Definition input (msg : string) : Sh string := fun s =>
  match stdin s with
  | [] => (inr EOFError,
           {| state := state s; stdin := []; stdout := stdout s ++ [Prompt msg] |})
  | l :: rest => (inl l,
           {| state := state s; stdin := rest; stdout := stdout s ++ [Prompt msg] |})
  end.

Definition prompt_float (msg : string) : Sh num := fun s =>
  match prompt_float_from msg (stdin s) with
  | (out, Some (val, rest)) =>
      (inl val, {| state := state s; stdin := rest; stdout := stdout s ++ out |})
  | (out, None) =>
      (inr Hang, {| state := state s; stdin := []; stdout := stdout s ++ out |})
  end.

Definition prompt_date (msg : string) (fmt : list directive) : Sh string := fun s =>
  match prompt_date_from msg fmt (stdin s) with
  | (out, Some (val, rest)) =>
      (inl val, {| state := state s; stdin := rest; stdout := stdout s ++ out |})
  | (out, None) =>
      (inr EOFError, {| state := state s; stdin := []; stdout := stdout s ++ out |})
  end.

(** A method of the tracker [b], called from the shell. *)
Definition call {A} (m : M num A) : Sh (outcome A) := fun s =>
  let '(o, w) := m (state s) in
  (inl o, {| state := w; stdin := stdin s; stdout := stdout s |}).

End Shell.

Arguments session num : clear implicits.
Arguments Sh num A : clear implicits.

Declare Scope shell_scope.
Delimit Scope shell_scope with shell.
Notation "x <- m ;; k" := (sh_bind m (fun x => k))
  (at level 100, m at next level, right associativity) : shell_scope.
Notation "m ;; k" := (sh_bind m (fun _ => k))
  (at level 100, right associativity) : shell_scope.

Section Main.
Context {num : Type} `{Number num} `{FileSystem} `{Console num}.
Local Open Scope shell_scope.

Definition options : list (string * string) :=
  [("1", "Add Income"); ("2", "Add Expense"); ("3", "Set Monthly Expense Limit");
   ("4", "View Monthly Summary"); ("5", "List Months"); ("6", "Exit")].

(** [str(e)] for what [Transaction(...)] raises: the bare [ValueError] of
    [__post_init__] has no text, the other is the error of [strptime]. *)
Definition Transaction_error (ttype : string) (amt : num) (dt : string) : string :=
  if negb (bool_decide (ttype ∈ ["income"; "expense"])) || num_lt amt num_zero
  then EmptyString
  else strptime_error dt fmt_Y_m_d.

(** [str(e)] for what [add_transaction] raises: the error of the
    constructor, or else the error of [save]. *)
Definition add_transaction_error (ttype : string) (amt : num) (dt desc path : string)
  : string :=
  match Transaction_init ttype amt dt desc with
  | Raise _ => Transaction_error ttype amt dt
  | Ok _ => write_error path
  end.

(** [str(e)] for what [set_limit] raises. *)
Definition set_limit_error (month path : string) : string :=
  match strptime month fmt_Y_m with
  | Raise _ => strptime_error month fmt_Y_m
  | Ok _ => write_error path
  end.

(** The branches ["1"] and ["2"] of the menu. *)
Definition add (ttype added : string) : Sh num unit :=
  amt <- prompt_float "Amount: ";;
  dt <- prompt_date "Date (YYYY-MM-DD): " fmt_Y_m_d;;
  desc <- input "Description: ";;
  fun s =>
    (r <- call (add_transaction ttype amt dt desc);;
     match r with
     | Ok _ => print added
     | Raise _ =>
         print ("Error: " +:+
                add_transaction_error ttype amt dt desc (data_file (self (state s))))
     end) s.

Definition menu_set_limit : Sh num unit :=
  month <- prompt_date "Month (YYYY-MM): " fmt_Y_m;;
  limit <- prompt_float "Limit amount: ";;
  fun s =>
    (r <- call (set_limit month limit);;
     match r with
     | Ok _ => print "Limit set."
     | Raise _ =>
         print ("Error: " +:+ set_limit_error month (data_file (self (state s))))
     end) s.

(** [clock] is what [datetime.now().strftime("%Y-%m")] returns, which may
    depend on how far the session has come: on the lines left to read. *)
Definition menu_summary (clock : list string -> string) : Sh num unit :=
  l <- input "Month (YYYY-MM), blank=now: ";;
  let month := if decide (strip l = EmptyString) then None else Some (strip l) in
  fun s =>
    (r <- call (summary (clock (stdin s)) month);;
     match r with
     | Ok r =>
         print (newline +:+ "Summary for " +:+ s_month r
                +:+ ": Income=" +:+ format_2f (s_income r)
                +:+ ", Expense=" +:+ format_2f (s_expense r)
                +:+ ", Balance=" +:+ format_2f (s_balance r));;
         print ("Limit: " +:+ match s_limit r with
                              | Some l => str_of_num l
                              | None => "None"
                              end
                +:+ ", Status: " +:+ s_status r)
     | Raise _ =>
         print ("Error: " +:+ strptime_error (default (clock (stdin s)) month) fmt_Y_m)
     end) s.

Definition menu_months : Sh num unit :=
  r <- call months;;
  match r with
  | Ok mnths =>
      print ("Months with data: " +:+
             match mnths with [] => "No data." | _ => join ", " mnths end)
  | Raise e => stop (Uncaught e)
  end.

(** One turn of the [while True] of [main]: [inl tt] to go round again. *)
Definition menu (clock : list string -> string) : Sh num unit :=
  print (newline +:+ "Menu:");;
  write ((fun kv => Print (fst kv +:+ ". " +:+ snd kv)) <$> options);;
  l <- input "Choice: ";;
  let c := strip l in
  if decide (c = "1") then add "income" "Income added."
  else if decide (c = "2") then add "expense" "Expense added."
  else if decide (c = "3") then menu_set_limit
  else if decide (c = "4") then menu_summary clock
  else if decide (c = "5") then menu_months
  else if decide (c = "6") then (print "Bye.";; stop Exit)
  else print "Invalid.".

(** The loop, for at most [fuel] turns. *)
Fixpoint main_loop (fuel : nat) (clock : list string -> string) (s : session num)
  : option (ending * session num) :=
  match fuel with
  | O => None
  | S fuel' =>
      match menu clock s with
      | (inl _, s') => main_loop fuel' clock s'
      | (inr e, s') => Some (e, s')
      end
  end.

(** The session when the loop is entered: [b = BudgetTracker()] has run. *)
Definition start (files : gmap string (file_text num)) (lines : list string)
  : session num :=
  {| state := snd (BudgetTracker_init DATA_FILE files); stdin := lines; stdout := [] |}.

(** [main()], on the files found and the lines typed.  Every turn reads a
    line, so one turn more than there are lines is enough. *)
Definition main (clock : list string -> string) (files : gmap string (file_text num))
    (lines : list string) : option (ending * session num) :=
  main_loop (S (length lines)) clock (start files lines).

End Main.

(** A console on integers, to run the shell on: it stands in for
    [float], for the formatting of floats and for the texts of the errors,
    which it shortens.  Only the runs on concrete sessions use it. *)
#[export] Instance Console_Z : Console Z := {|
  float_of_str s := Z.of_int <$> DecimalString.NilZero.int_of_string s;
  format_2f x := DecimalString.NilZero.string_of_int (Z.to_int x) +:+ ".00";
  str_of_num x := DecimalString.NilZero.string_of_int (Z.to_int x);
  strptime_error s fmt := "time data does not match format";
  write_error path := "cannot write " +:+ path
|}.


(** ** Readings of a turn *)

Section TurnReadings.
Context {num : Type} `{Number num} `{FileSystem} `{Console num}.

(** A line that [prompt_float] turns down. *)
Definition not_a_number (l : string) : Prop :=
  match float_of_str (strip l) with
  | None => True
  | Some val => num_lt val num_zero = true
  end.

(** The line that ends a turn on inputs that the prompts let through:
    [line] when the call returned, the error of [save] when it raised. *)
Definition last_line {A} (o : outcome A) (line path : string) : string :=
  match o with
  | Ok _ => line
  | Raise _ => "Error: " +:+ write_error path
  end.

(** A turn that added a transaction, one that set a limit, and the end of
    a session inside a prompt. *)
Definition added_turn (ttype added : string) (s s' : session num) : Prop :=
  exists amt dt desc out,
    valid ttype amt dt
    /\ state s' = snd (add_transaction ttype amt dt desc (state s))
    /\ stdout s' = stdout s ++ out
                   ++ [Print (last_line (fst (add_transaction ttype amt dt desc (state s)))
                                        added (data_file (self (state s))))]
    /\ (length (stdin s') < length (stdin s))%nat.

Definition limit_turn (s s' : session num) : Prop :=
  exists month limit out,
    accepted_month month
    /\ num_lt limit num_zero = false
    /\ state s' = snd (set_limit month limit (state s))
    /\ stdout s' = stdout s ++ out
                   ++ [Print (last_line (fst (set_limit month limit (state s)))
                                        "Limit set." (data_file (self (state s))))]
    /\ (length (stdin s') < length (stdin s))%nat.

Definition idle_end (e : ending) (s s' : session num) : Prop :=
  state s' = state s /\ (e = Hang \/ e = EOFError) /\ stdin s' = [].

(** The session once the menu is shown and the choice read. *)
Definition chosen (s : session num) (rest : list string) : session num :=
  {| state := state s; stdin := rest;
     stdout := (stdout s ++ [Print (newline +:+ "Menu:")])
               ++ ((fun kv => Print (fst kv +:+ ". " +:+ snd kv)) <$> options)
               ++ [Prompt "Choice: "] |}.

(** What is on the screen when the choice has been read. *)
Definition menu_shown : list event :=
  Print (newline +:+ "Menu:")
  :: ((fun kv => Print (fst kv +:+ ". " +:+ snd kv)) <$> options)
  ++ [Prompt "Choice: "].

End TurnReadings.

(** ** More worlds and sessions to run on *)

Section MoreWorlds.
#[local] Existing Instance plain_files.

Definition wA1 : world Z :=
  snd (add_transaction "income" 1000 "2024-01-05" "pay" w0).

Definition wL : world Z := snd (set_limit "2024-01" 300 w0).

(** A document of two entries, without the key of the limits. *)
Definition docA : document Z :=
  {| doc_transactions :=
       Some [ {| d_type := "income"; d_amount := 1000; d_date := "2024-01-05";
                 d_description := "pay" |};
              {| d_type := "expense"; d_amount := 400; d_date := "2024-1-10";
                 d_description := "rent" |} ];
     doc_expense_limits := None |}.

Definition june : list string -> string := fun _ => "2024-06".

Definition no_files : gmap string (file_text Z) := ∅.

Definition session_add : session Z := start no_files ["1"; "abc"; "1000"; "2024-01-05"; "pay"].
Definition session_limit : session Z := start no_files [" 3 "; "2024-13"; "2024-01"; "-5"; "300"].
Definition session_exit : session Z := start no_files ["6"; "1"].

End MoreWorlds.

Section FullDisk.
#[local] Existing Instance full_disk.

(** The first two transactions again, on a disk that is full. *)
Definition wA_full_disk : world Z :=
  snd (add_transaction "expense" 400 "2024-01-10" "rent"
         (snd (add_transaction "income" 1000 "2024-01-05" "pay" w0))).

End FullDisk.

(** * Facts about characters and text *)

Arguments code : simpl never.

Lemma in_range_spec lo hi c :
  in_range lo hi c = true <-> code lo <= code c <= code hi.
Proof. unfold in_range. rewrite andb_true_iff, !Z.leb_le. tauto. Qed.

Lemma code_inj a b : code a = code b -> a = b.
Proof.
  unfold code. intros E. apply N2Z.inj in E.
  rewrite <- (ascii_N_embedding a), <- (ascii_N_embedding b). by rewrite E.
Qed.

Lemma in_range_same a c : in_range a a c = true -> c = a.
Proof. rewrite in_range_spec. intros ?. apply code_inj. lia. Qed.

Lemma append_empty_r (s : string) : s +:+ EmptyString = s.
Proof.
  induction s as [|c s IH]; simpl; [done|].
  unfold String.app in *. simpl. by rewrite IH.
Qed.

Lemma startswith_slice s p :
  startswith s p = true <-> slice_to (String.length p) s = p.
Proof.
  revert s. induction p as [|a p IH]; intros [|b s]; simpl; try done.
  destruct (decide (a = b)) as [->|Hne].
  - rewrite IH. split; [by intros ->|by intros [= ->]].
  - split; [done|]. intros [= -> _]. done.
Qed.

(** The code of a character literal, computed where it stands. *)
Ltac eval_codes :=
  repeat match goal with
    | |- context [code (Ascii ?a ?b ?c ?d ?e ?f ?g ?h)] =>
        let v := eval vm_compute in (code (Ascii a b c d e f g h)) in
        change (code (Ascii a b c d e f g h)) with v
    | H : context [code (Ascii ?a ?b ?c ?d ?e ?f ?g ?h)] |- _ =>
        let v := eval vm_compute in (code (Ascii a b c d e f g h)) in
        change (code (Ascii a b c d e f g h)) with v in H
    end.

(** Class tests, in the hypotheses and in the goal, as bounds on codes. *)
Ltac ranges :=
  unfold is_digit in *;
  repeat match goal with
    | H : in_range _ _ _ = true |- _ => apply in_range_spec in H
    | |- context [in_range ?a ?b ?c] =>
        let E := fresh "E" in
        destruct (in_range a b c) eqn:E;
        [apply in_range_spec in E
        |apply not_true_iff_false in E; rewrite in_range_spec in E]
    end;
  eval_codes.

Ltac in_list := apply (bool_decide_unpack _); vm_compute; exact I.

Ltac split_cases H :=
  repeat (apply elem_of_cons in H as [->|H]); [..|by apply elem_of_nil in H].

(** * What a matcher returns *)

Lemma chr_elem lo hi s a r :
  (a, r) ∈ chr lo hi s ->
  exists c, s = String c r /\ a = String c EmptyString /\ in_range lo hi c = true.
Proof.
  destruct s as [|c s]; simpl; [by rewrite elem_of_nil|].
  destruct (in_range lo hi c) eqn:E; [|by rewrite elem_of_nil].
  rewrite list_elem_of_singleton. intros [= -> ->]. eauto.
Qed.

Lemma seq_elem p q s a r :
  (a, r) ∈ seq p q s ->
  exists a1 a2 r1, (a1, r1) ∈ p s /\ (a2, r) ∈ q r1 /\ a = a1 +:+ a2.
Proof.
  unfold seq. rewrite list_elem_of_bind. intros [[a1 r1] [Hq Hp]].
  apply list_elem_of_bind in Hq as [[a2 r2] [Hs Hq]].
  apply list_elem_of_singleton in Hs as [= -> ->]. eauto 6.
Qed.

Lemma alt_elem p q s x : x ∈ alt p q s -> x ∈ p s \/ x ∈ q s.
Proof. unfold alt. by rewrite elem_of_app. Qed.

Ltac matched :=
  repeat match goal with
    | H : _ ∈ alt _ _ _ |- _ => apply alt_elem in H as [H|H]
    | H : _ ∈ seq _ _ _ |- _ =>
        let a1 := fresh "a" in let a2 := fresh "a" in let r1 := fresh "r" in
        let H1 := fresh H in let H2 := fresh H in
        apply seq_elem in H as (a1 & a2 & r1 & H1 & H2 & ->)
    | H : _ ∈ digit _ |- _ => unfold digit in H
    | H : _ ∈ chr _ _ _ |- _ =>
        let c := fresh "c" in let Hc := fresh "Hc" in
        apply chr_elem in H as (c & -> & -> & Hc)
    end.

Lemma re_Y_elem s a r : (a, r) ∈ re_Y s -> s = a +:+ r /\ year_text a = true.
Proof.
  unfold re_Y. intros Hm. matched. split; [done|].
  unfold year_text. simpl. ranges; simpl; try lia.
Qed.

Lemma re_m_elem s a r : (a, r) ∈ re_m s -> s = a +:+ r /\ month_text a = true.
Proof.
  unfold re_m. intros Hm. matched; (split; [done|]).
  all: unfold month_text, short_or_padded, int; simpl; unfold int_step; ranges; simpl; try lia.
  all: rewrite ?andb_true_iff, ?Z.leb_le; lia.
Qed.

Lemma re_d_elem s a r : (a, r) ∈ re_d s -> s = a +:+ r /\ day_text a = true.
Proof.
  unfold re_d. intros Hm. matched; (split; [done|]).
  all: unfold day_text, short_or_padded, blank_digit, int; simpl; unfold int_step.
  5:{ match goal with
      | H : in_range " " " " _ = true |- _ => apply in_range_same in H as ->
      end.
      apply orb_true_iff; right. simpl. done. }
  all: apply orb_true_iff; left.
  all: ranges; simpl; try lia.
  all: rewrite ?andb_true_iff, ?Z.leb_le; lia.
Qed.

Lemma lit_elem c s a r :
  (a, r) ∈ re_of (Lit c) s -> s = String c r /\ a = String c EmptyString.
Proof.
  simpl. intros (c' & -> & -> & Hc)%chr_elem. by apply in_range_same in Hc as ->.
Qed.

Lemma re_match_cons_elem d fmt s g r' :
  (g, r') ∈ re_match (d :: fmt) s ->
  exists a r groups,
    (a, r) ∈ re_of d s /\ (groups, r') ∈ re_match fmt r /\ g = (d, a) :: groups.
Proof.
  simpl. rewrite list_elem_of_bind. intros [[a r] [Hk Hd]].
  apply list_elem_of_bind in Hk as [[groups r2] [Hs Hk]].
  apply list_elem_of_singleton in Hs as [= -> ->]. eauto 6.
Qed.

Ltac found H :=
  repeat match type of H with
    | _ ∈ re_match (_ :: _) _ =>
        let a := fresh "a" in let r := fresh "r" in let g := fresh "g" in
        let Ha := fresh "Ha" in
        apply re_match_cons_elem in H as (a & r & g & Ha & H & ->)
    | _ ∈ re_match [] _ =>
        simpl in H; apply list_elem_of_singleton in H; simplify_eq
    end.

(** * The texts that [strptime] takes *)

Lemma is_digit_cases c : is_digit c = true -> c ∈ digit_chars.
Proof.
  intros Hc.
  destruct c as [[] [] [] [] [] [] [] []]; vm_compute in Hc; try discriminate Hc; in_list.
Qed.

Lemma short_or_padded_cases hi a :
  short_or_padded hi a = true ->
  exists c1 c2,
    (a = String c1 EmptyString \/ a = String c1 (String c2 EmptyString))
    /\ c1 ∈ digit_chars /\ c2 ∈ digit_chars.
Proof.
  unfold short_or_padded. rewrite !andb_true_iff, orb_true_iff, !bool_decide_eq_true.
  intros [[[Hd Hl] _] _].
  destruct a as [|c1 [|c2 [|c3 a]]]; simpl in *; try (destruct Hl; discriminate).
  - apply andb_true_iff in Hd as [H1 _]. exists c1, c1. auto using is_digit_cases.
  - apply andb_true_iff in Hd as [H1 H2]. apply andb_true_iff in H2 as [H2 _].
    exists c1, c2. auto using is_digit_cases.
Qed.

Lemma month_text_cases M : month_text M = true -> M ∈ month_texts.
Proof.
  intros HM. destruct (short_or_padded_cases _ _ HM) as (c1 & c2 & Ha & H1 & H2).
  unfold digit_chars in *.
  destruct Ha as [-> | ->]; split_cases H1.
  1-10: vm_compute in HM; try discriminate HM; in_list.
  all: split_cases H2; vm_compute in HM; try discriminate HM; in_list.
Qed.

Lemma day_text_cases D : day_text D = true -> D ∈ day_texts.
Proof.
  unfold day_text. rewrite orb_true_iff. intros [HD|HD].
  - destruct (short_or_padded_cases _ _ HD) as (c1 & c2 & Ha & H1 & H2).
    unfold digit_chars in *.
    destruct Ha as [-> | ->]; split_cases H1.
    1-10: vm_compute in HD; try discriminate HD; in_list.
    all: split_cases H2; vm_compute in HD; try discriminate HD; in_list.
  - destruct D as [|b [|c [|? ?]]]; simpl in HD; try discriminate HD.
    apply andb_true_iff in HD as [Hb Hc]. apply bool_decide_eq_true in Hb as ->.
    assert (Hc' : c ∈ digit_chars).
    { apply is_digit_cases. unfold is_digit. apply in_range_spec in Hc.
      apply in_range_spec. eval_codes. lia. }
    unfold digit_chars in Hc'.
    split_cases Hc'; vm_compute in Hc; try discriminate Hc; in_list.
Qed.

Lemma year_text_inv Y :
  year_text Y = true ->
  exists y1 y2 y3 y4,
    Y = String y1 (String y2 (String y3 (String y4 EmptyString)))
    /\ is_digit y1 = true /\ is_digit y2 = true
    /\ is_digit y3 = true /\ is_digit y4 = true.
Proof.
  unfold year_text. rewrite andb_true_iff, bool_decide_eq_true. intros [Hd Hl].
  destruct Y as [|y1 [|y2 [|y3 [|y4 [|? ?]]]]]; try discriminate Hl.
  simpl in Hd. rewrite !andb_true_iff in Hd.
  destruct Hd as (H1 & H2 & H3 & H4 & _). by exists y1, y2, y3, y4.
Qed.

Lemma year_text_int Y : year_text Y = true -> 0 <= int Y <= 9999.
Proof.
  intros (y1 & y2 & y3 & y4 & -> & H1 & H2 & H3 & H4)%year_text_inv.
  unfold is_digit, int in *. simpl. unfold int_step. rewrite H1, H2, H3, H4.
  ranges. lia.
Qed.

Lemma month_text_int M : month_text M = true -> 1 <= int M <= 12.
Proof.
  unfold month_text, short_or_padded. rewrite !andb_true_iff, !Z.leb_le. tauto.
Qed.

Lemma day_text_int D : day_text D = true -> 1 <= int D.
Proof.
  intros HD%day_text_cases. unfold day_texts in HD. split_cases HD; by vm_compute.
Qed.

Lemma days_in_month_pos year month : 1 <= month <= 12 -> 1 <= days_in_month year month.
Proof.
  intros Hm. unfold days_in_month. destruct (_ && _); [lia|].
  assert (Hc : month ∈ [1; 2; 3; 4; 5; 6; 7; 8; 9; 10; 11; 12]).
  { rewrite !elem_of_cons. lia. }
  split_cases Hc; by vm_compute.
Qed.

(** The year group reads exactly a year text. *)
Lemma re_Y_year Y r : year_text Y = true -> re_Y (Y +:+ r) = [(Y, r)].
Proof.
  intros (y1 & y2 & y3 & y4 & -> & H1 & H2 & H3 & H4)%year_text_inv.
  unfold is_digit in *. unfold re_Y, seq, digit. simpl.
  rewrite H1. simpl. rewrite H2. simpl. rewrite H3. simpl. by rewrite H4.
Qed.

Lemma strptime_Y Y r fmt :
  year_text Y = true ->
  strptime (Y +:+ r) (Dir_Y :: fmt) = after_year (int Y) (re_match fmt r).
Proof.
  intros HY. unfold strptime. simpl re_match. simpl re_of. rewrite (re_Y_year _ _ HY).
  simpl. rewrite app_nil_r.
  destruct (re_match fmt r) as [|[groups rest] l]; simpl; [done|].
  destruct (decide (rest = EmptyString)); done.
Qed.

(** After the year, the engine's first choice reads the month and the day
    whole: run on each of the texts. *)
Lemma re_match_m_d M D :
  M ∈ month_texts -> D ∈ day_texts ->
  exists others,
    re_match [Lit "-"; Dir_m; Lit "-"; Dir_d] ("-" +:+ M +:+ "-" +:+ D)
    = ([(Lit "-", "-"); (Dir_m, M); (Lit "-", "-"); (Dir_d, D)], EmptyString) :: others.
Proof.
  unfold month_texts, day_texts. intros HM HD.
  split_cases HM; split_cases HD; vm_compute; eexists; reflexivity.
Qed.

Lemma re_match_m M :
  M ∈ month_texts ->
  exists others,
    re_match [Lit "-"; Dir_m] ("-" +:+ M)
    = ([(Lit "-", "-"); (Dir_m, M)], EmptyString) :: others.
Proof.
  unfold month_texts. intros HM.
  split_cases HM; vm_compute; eexists; reflexivity.
Qed.

Lemma strptime_date_Ok Y M D :
  year_text Y = true -> month_text M = true -> day_text D = true ->
  1 <= int Y -> int D <= days_in_month (int Y) (int M) ->
  strptime (Y +:+ "-" +:+ M +:+ "-" +:+ D) fmt_Y_m_d = Ok (int Y, int M, int D).
Proof.
  intros HY HM HD Hy Hd. unfold fmt_Y_m_d. rewrite (strptime_Y _ _ _ HY).
  destruct (re_match_m_d M D) as [l ->]; auto using month_text_cases, day_text_cases.
  simpl. unfold check_date_fields.
  pose proof (year_text_int _ HY). pose proof (month_text_int _ HM).
  pose proof (day_text_int _ HD).
  repeat (rewrite (proj2 (Z.leb_le _ _)); [|lia]). done.
Qed.

Lemma strptime_month_Ok Y M :
  year_text Y = true -> month_text M = true -> 1 <= int Y ->
  strptime (Y +:+ "-" +:+ M) fmt_Y_m = Ok (int Y, int M, 1).
Proof.
  intros HY HM Hy. unfold fmt_Y_m. rewrite (strptime_Y _ _ _ HY).
  destruct (re_match_m M) as [l ->]; auto using month_text_cases.
  simpl. unfold check_date_fields.
  pose proof (year_text_int _ HY). pose proof (month_text_int _ HM) as Hm.
  pose proof (days_in_month_pos (int Y) _ Hm).
  repeat (rewrite (proj2 (Z.leb_le _ _)); [|lia]). done.
Qed.

Lemma strptime_date_inv s v : strptime s fmt_Y_m_d = Ok v -> accepted_date s.
Proof.
  unfold strptime. destruct (re_match fmt_Y_m_d s) as [|[groups rest] l] eqn:Hm; [done|].
  assert (Hin : (groups, rest) ∈ re_match fmt_Y_m_d s) by (rewrite Hm; left).
  clear Hm. destruct (decide (rest = EmptyString)) as [->|]; [|done].
  unfold fmt_Y_m_d in Hin. found Hin.
  apply re_Y_elem in Ha as [-> HY]. apply lit_elem in Ha0 as [-> ->].
  apply re_m_elem in Ha1 as [-> HM]. apply lit_elem in Ha2 as [-> ->].
  apply re_d_elem in Ha3 as [-> HD].
  simpl. destruct (check_date_fields _ _ _) eqn:Hc; [|done]. intros _.
  unfold check_date_fields in Hc. rewrite !andb_true_iff, !Z.leb_le in Hc.
  exists a, a1, a3. rewrite append_empty_r.
  repeat split; try done; lia.
Qed.

Lemma strptime_month_inv s v : strptime s fmt_Y_m = Ok v -> accepted_month s.
Proof.
  unfold strptime. destruct (re_match fmt_Y_m s) as [|[groups rest] l] eqn:Hm; [done|].
  assert (Hin : (groups, rest) ∈ re_match fmt_Y_m s) by (rewrite Hm; left).
  clear Hm. destruct (decide (rest = EmptyString)) as [->|]; [|done].
  unfold fmt_Y_m in Hin. found Hin.
  apply re_Y_elem in Ha as [-> HY]. apply lit_elem in Ha0 as [-> ->].
  apply re_m_elem in Ha1 as [-> HM].
  simpl. destruct (check_date_fields _ _ _) eqn:Hc; [|done]. intros _.
  unfold check_date_fields in Hc. rewrite !andb_true_iff, !Z.leb_le in Hc.
  exists a, a1. rewrite append_empty_r.
  repeat split; try done; lia.
Qed.

Lemma raises_not_Ok {A} (o : outcome A) : raises o <-> forall v, o <> Ok v.
Proof. destruct o; simpl; split; try done. intros Hn. by apply (Hn a). Qed.

(** [strptime] raises on exactly the texts outside the two readings. *)
Lemma strptime_date_raises s : raises (strptime s fmt_Y_m_d) <-> ~ accepted_date s.
Proof.
  split.
  - intros Hr (Y & M & D & -> & HY & HM & HD & Hy & Hd).
    rewrite strptime_date_Ok in Hr; done.
  - intros Hn. apply raises_not_Ok. intros v Hv. eauto using strptime_date_inv.
Qed.

Lemma strptime_month_raises s : raises (strptime s fmt_Y_m) <-> ~ accepted_month s.
Proof.
  split.
  - intros Hr (Y & M & -> & HY & HM & Hy).
    rewrite strptime_month_Ok in Hr; done.
  - intros Hn. apply raises_not_Ok. intros v Hv. eauto using strptime_month_inv.
Qed.

Lemma accepted_month_dec month : accepted_month month \/ ~ accepted_month month.
Proof.
  destruct (strptime month fmt_Y_m) as [v|e] eqn:Hs.
  - left. eauto using strptime_month_inv.
  - right. apply strptime_month_raises. by rewrite Hs.
Qed.

(** The strict patterns are among the texts taken. *)
Lemma YYYY_MM_length s : YYYY_MM s = true -> String.length s = 7%nat.
Proof. unfold YYYY_MM. rewrite !andb_true_iff, !bool_decide_eq_true. tauto. Qed.

Lemma YYYY_MM_accepted s : YYYY_MM s = true -> accepted_month s.
Proof.
  unfold YYYY_MM. rewrite !andb_true_iff, !bool_decide_eq_true, !Z.leb_le.
  intros [[[[[[Hl HY] Hy] Hdash] HM] Hm1] Hm2].
  destruct s as [|c1 [|c2 [|c3 [|c4 [|c5 [|c6 [|c7 [|? ?]]]]]]]]; try discriminate Hl.
  simpl in *. injection Hdash as ->.
  exists (String c1 (String c2 (String c3 (String c4 EmptyString)))),
    (String c6 (String c7 EmptyString)).
  repeat split; try done.
  unfold month_text, short_or_padded. unfold padded in HM.
  apply andb_true_iff in HM as [-> _]. simpl.
  rewrite !andb_true_iff, !Z.leb_le. auto.
Qed.

Lemma YYYY_MM_DD_accepted s : YYYY_MM_DD s = true -> accepted_date s.
Proof.
  unfold YYYY_MM_DD. rewrite !andb_true_iff, !bool_decide_eq_true, !Z.leb_le.
  intros [[[[[[[[[[Hl HY] Hy] Hdash] HM] Hm1] Hm2] Hdash2] HD] Hd1] Hd2].
  destruct s as [|c1 [|c2 [|c3 [|c4 [|c5 [|c6 [|c7 [|c8 [|c9 [|c10 [|? ?]]]]]]]]]]];
    try discriminate Hl.
  simpl in *. injection Hdash as ->. injection Hdash2 as ->.
  exists (String c1 (String c2 (String c3 (String c4 EmptyString)))),
    (String c6 (String c7 EmptyString)), (String c9 (String c10 EmptyString)).
  unfold padded in HM, HD.
  apply andb_true_iff in HM as [HM _]. apply andb_true_iff in HD as [HD _].
  assert (int (String c9 (String c10 EmptyString)) <= 31).
  { etrans; [exact Hd2|]. unfold days_in_month. destruct (_ && _); [lia|].
    assert (Hc : int (String c6 (String c7 EmptyString))
                 ∈ [1; 2; 3; 4; 5; 6; 7; 8; 9; 10; 11; 12]).
    { rewrite !elem_of_cons. lia. }
    set (m := int _) in *. clearbody m. split_cases Hc; by vm_compute. }
  repeat split; try done.
  - unfold month_text, short_or_padded. rewrite HM. simpl.
    rewrite !andb_true_iff, !Z.leb_le. auto.
  - unfold day_text, short_or_padded. rewrite HD. simpl.
    rewrite orb_true_iff, !andb_true_iff, !Z.leb_le. auto.
Qed.

Lemma YYYY_MM_DD_prefix s : YYYY_MM_DD s = true -> YYYY_MM (slice_to 7 s) = true.
Proof.
  unfold YYYY_MM_DD, YYYY_MM. rewrite !andb_true_iff, !bool_decide_eq_true.
  intros [[[[[[[[[[Hl HY] Hy] Hdash] HM] Hm1] Hm2] _] _] _] _].
  destruct s as [|c1 [|c2 [|c3 [|c4 [|c5 [|c6 [|c7 [|c8 [|c9 [|c10 [|? ?]]]]]]]]]]];
    try discriminate Hl.
  simpl in *. done.
Qed.

(** * The first seven characters of a date *)

Lemma slice_to_split n d :
  exists rest,
    d = slice_to n d +:+ rest
    /\ (String.length (slice_to n d) = n
        \/ ((String.length (slice_to n d) < n)%nat /\ rest = EmptyString)).
Proof.
  revert d. induction n as [|n IH]; intros d.
  - exists d. destruct d; simpl; auto.
  - destruct d as [|c d]; simpl.
    + exists EmptyString. split; [done|]. right. split; [lia|done].
    + destruct (IH d) as (rest & Hd & Hl). exists rest. split.
      * change (String c d = String c (slice_to n d +:+ rest)). by f_equal.
      * destruct Hl as [Hl|[Hl ->]]; [left|right]; [by rewrite Hl|split; [lia|done]].
Qed.

Lemma slice_to_append m rest n :
  String.length m = n \/ ((String.length m < n)%nat /\ rest = EmptyString) ->
  slice_to n (m +:+ rest) = m.
Proof.
  revert m. induction n as [|n IH]; intros m Hl.
  - destruct m; simpl in *; [by destruct rest|]. destruct Hl as [?|[? _]]; [done|lia].
  - destruct m as [|c m]; simpl in *.
    + destruct Hl as [?|[_ ->]]; done.
    + f_equal. apply IH. destruct Hl as [?|[? ?]]; [left; lia|right; split; [lia|done]].
Qed.

(** The first seven characters, by [s[:7]]. *)
Lemma first_seven_slice m d : first_seven m d <-> m = slice_to 7 d.
Proof.
  split.
  - intros (rest & -> & Hl). symmetry. by apply slice_to_append.
  - intros ->. apply slice_to_split.
Qed.

Lemma year_month_dash_not_YYYY_MM m : year_month_dash m -> YYYY_MM m = false.
Proof.
  intros (Y & c & -> & (y1 & y2 & y3 & y4 & -> & _)%year_text_inv & _).
  unfold YYYY_MM. simpl substring. unfold padded at 1. simpl all_digits.
  rewrite (andb_false_r (is_digit c)). cbn [andb]. by rewrite andb_false_r.
Qed.

Lemma YYYY_MM_intro Y M :
  year_text Y = true -> 1 <= int Y -> padded 2 M = true -> 1 <= int M <= 12 ->
  YYYY_MM (Y +:+ "-" +:+ M) = true.
Proof.
  intros HY Hy HM [Hm1 Hm2].
  pose proof HY as (y1 & y2 & y3 & y4 & -> & _)%year_text_inv.
  pose proof HM as [_ Hl%bool_decide_eq_true]%andb_true_iff.
  destruct M as [|m1 [|m2 [|? ?]]]; try discriminate Hl.
  set (Y := String y1 _) in *. set (M := String m1 _) in *.
  change (YYYY_MM (Y +:+ "-" +:+ M))
    with (bool_decide (7 = 7)%nat && year_text Y && (1 <=? int Y)
          && bool_decide ("-" = "-") && padded 2 M && (1 <=? int M) && (int M <=? 12)).
  rewrite HY, HM. rewrite !andb_true_iff, !bool_decide_eq_true, !Z.leb_le. done.
Qed.

(** The first seven characters of a date that [strptime] takes: the year
    and the month when the month has two digits, and else the year, the
    month and the dash after it. *)
Lemma accepted_date_prefix d :
  accepted_date d ->
  YYYY_MM (slice_to 7 d) = true \/ year_month_dash (slice_to 7 d).
Proof.
  intros (Y & M & D & -> & HY & HM & HD & Hy & _).
  pose proof HY as (y1 & y2 & y3 & y4 & HYeq & _)%year_text_inv.
  apply month_text_cases in HM.
  assert (HD' : exists d1 D', D = String d1 D').
  { apply day_text_cases in HD. destruct D as [|d1 D']; [|by eauto].
    exfalso. revert HD. apply (bool_decide_unpack _). by vm_compute. }
  destruct HD' as (d1 & D' & ->).
  unfold month_texts in HM. split_cases HM.
  1-9: right; eexists Y, _; subst Y; split; [reflexivity|]; split; [done|by vm_compute].
  all: left; subst Y.
  all: match goal with
       | |- YYYY_MM (slice_to 7 (?Y +:+ "-" +:+ ?M +:+ _)) = true =>
           change (YYYY_MM (Y +:+ "-" +:+ M) = true); apply YYYY_MM_intro;
           [done|done|by vm_compute|by vm_compute]
       end.
Qed.

(** * The constructor of [Transaction] *)

Lemma tag_elem kind : tag kind <-> kind ∈ ["income"; "expense"].
Proof. unfold tag. rewrite !elem_of_cons, elem_of_nil. tauto. Qed.

(** What [strptime] raises is a [ValueError]. *)
Lemma strptime_raises_ValueError s fmt e : strptime s fmt = Raise e -> e = ValueError.
Proof.
  unfold strptime. destruct (re_match fmt s) as [|[groups rest] ?]; [congruence|].
  destruct (decide _); [|congruence]. destruct (check_date_fields _ _ _); congruence.
Qed.

Section ProgramFacts.
Context {num : Type} `{Number num} `{FileSystem}.
Implicit Types (w : world num) (t : Transaction num).

Lemma tracker_eta (me : BudgetTracker num) :
  {| data_file := data_file me; transactions := transactions me;
     expense_limits := expense_limits me |} = me.
Proof. by destruct me. Qed.

Lemma Transaction_init_Ok ttype (amt : num) dt desc :
  valid ttype amt dt ->
  Transaction_init ttype amt dt desc
  = Ok {| type := ttype; amount := amt; date := dt; description := desc |}.
Proof.
  intros (Ht & Ha & (Y & M & D & -> & HY & HM & HD & Hy & Hd)).
  unfold Transaction_init. simpl.
  rewrite bool_decide_eq_true_2 by by apply tag_elem.
  rewrite Ha. simpl. by rewrite strptime_date_Ok.
Qed.

Lemma Transaction_init_inv ttype (amt : num) dt desc t :
  Transaction_init ttype amt dt desc = Ok t ->
  valid ttype amt dt
  /\ t = {| type := ttype; amount := amt; date := dt; description := desc |}.
Proof.
  unfold Transaction_init. simpl.
  destruct (bool_decide _) eqn:Ht; simpl; [|done].
  destruct (num_lt amt num_zero) eqn:Ha; [done|].
  destruct (strptime dt fmt_Y_m_d) eqn:Hd; [|done]. intros [= <-].
  apply bool_decide_eq_true, tag_elem in Ht.
  split; [|done]. repeat split; eauto using strptime_date_inv.
Qed.

Lemma Transaction_init_raises ttype (amt : num) dt desc :
  raises (Transaction_init ttype amt dt desc) <-> ~ valid ttype amt dt.
Proof.
  split.
  - intros Hr Hv. by rewrite (Transaction_init_Ok _ _ _ desc Hv) in Hr.
  - intros Hn. apply raises_not_Ok. intros t Ht.
    by apply Transaction_init_inv in Ht as [? _].
Qed.

Lemma Transaction_init_ValueError ttype (amt : num) dt desc e :
  Transaction_init ttype amt dt desc = Raise e -> e = ValueError.
Proof.
  unfold Transaction_init. simpl.
  destruct (negb _ || _); [congruence|].
  destruct (strptime dt fmt_Y_m_d) eqn:Hd; [done|]. intros [= <-].
  by apply strptime_raises_ValueError in Hd.
Qed.

Lemma valid_dec ttype (amt : num) dt : valid ttype amt dt \/ ~ valid ttype amt dt.
Proof.
  destruct (Transaction_init ttype amt dt EmptyString) as [t|e] eqn:Ht.
  - left. by apply Transaction_init_inv in Ht as [? _].
  - right. apply (Transaction_init_raises _ _ _ EmptyString). by rewrite Ht.
Qed.

Lemma not_valid ttype (amt : num) dt :
  ~ valid ttype amt dt
  <-> ~ tag ttype \/ num_lt amt num_zero = true \/ ~ accepted_date dt.
Proof.
  unfold valid. split.
  - intros Hn. destruct (decide (ttype ∈ ["income"; "expense"])) as [Ht|Ht].
    + destruct (num_lt amt num_zero) eqn:Ha; [auto|].
      right; right. intros Hd. apply Hn. by rewrite tag_elem.
    + left. by rewrite tag_elem.
  - intros [Hn|[Hn|Hn]] (Ht & Ha & Hd); [done| |done]. by rewrite Hn in Ha.
Qed.

(** * The methods, unfolded *)

Lemma add_transaction_Ok w ttype (amt : num) dt desc :
  valid ttype amt dt ->
  add_transaction ttype amt dt desc w
  = save {| self := {| data_file := data_file (self w);
                       transactions := transactions (self w) ++
                         [{| type := ttype; amount := amt; date := dt;
                             description := desc |}];
                       expense_limits := expense_limits (self w) |};
            disk := disk w |}.
Proof.
  intros Hv. unfold add_transaction, bind, lift.
  by rewrite (Transaction_init_Ok _ _ _ desc Hv).
Qed.

Lemma add_transaction_Raise w ttype (amt : num) dt desc :
  ~ valid ttype amt dt ->
  add_transaction ttype amt dt desc w = (Raise ValueError, w).
Proof.
  intros Hn%(Transaction_init_raises _ _ _ desc). unfold add_transaction, bind, lift.
  destruct (Transaction_init ttype amt dt desc) as [|e] eqn:Ht; [done|].
  by rewrite (Transaction_init_ValueError _ _ _ _ _ Ht).
Qed.

Lemma set_limit_Ok w month (limit : num) :
  accepted_month month ->
  set_limit month limit w
  = save {| self := {| data_file := data_file (self w);
                       transactions := transactions (self w);
                       expense_limits := <[month := limit]> (expense_limits (self w)) |};
            disk := disk w |}.
Proof.
  intros (Y & M & -> & HY & HM & Hy). unfold set_limit, bind, lift.
  by rewrite strptime_month_Ok.
Qed.

Lemma set_limit_Raise w month (limit : num) :
  ~ accepted_month month -> set_limit month limit w = (Raise ValueError, w).
Proof.
  intros Hn%strptime_month_raises. unfold set_limit, bind, lift.
  destruct (strptime month fmt_Y_m) as [|e] eqn:Hm; [done|].
  by rewrite (strptime_raises_ValueError _ _ _ Hm).
Qed.

(** [save], by what the file system does with the data file. *)
Lemma save_writes w :
  write_fault (data_file (self w)) = None ->
  save w = (Ok tt, {| self := self w;
                      disk := <[data_file (self w) := Json (document_of (self w))]> (disk w) |}).
Proof. intros Hf. unfold save, bind, get_self, write_file. by rewrite Hf. Qed.

Lemma save_cannot_open w e :
  write_fault (data_file (self w)) = Some (CannotOpen e) -> save w = (Raise e, w).
Proof. intros Hf. unfold save, bind, get_self, write_file. by rewrite Hf. Qed.

Lemma save_cannot_write w e :
  write_fault (data_file (self w)) = Some (CannotWrite e) ->
  save w = (Raise e, {| self := self w;
                        disk := <[data_file (self w) := NotJson]> (disk w) |}).
Proof. intros Hf. unfold save, bind, get_self, write_file. by rewrite Hf. Qed.

(** [save] leaves [self] as it is, raises exactly when the file system
    has a fault for the data file, and touches no other file. *)
Lemma save_self w : self (snd (save w)) = self w.
Proof.
  unfold save, bind, get_self, write_file. simpl.
  by destruct (write_fault _) as [[]|].
Qed.

Lemma save_returns w : fst (save w) = Ok tt <-> write_fault (data_file (self w)) = None.
Proof.
  unfold save, bind, get_self, write_file. simpl.
  by destruct (write_fault _) as [[]|].
Qed.

Lemma save_raises w : raises (fst (save w)) <-> write_fault (data_file (self w)) <> None.
Proof.
  unfold save, bind, get_self, write_file. simpl.
  by destruct (write_fault _) as [[]|]; simpl; split.
Qed.

Lemma save_other_files w path :
  path <> data_file (self w) -> disk (snd (save w)) !! path = disk w !! path.
Proof.
  intros Hp. unfold save, bind, get_self, write_file. simpl.
  destruct (write_fault _) as [[]|]; simpl; by rewrite ?lookup_insert_ne.
Qed.

Lemma summary_Ok w now month :
  accepted_month (default now month) ->
  summary now month w =
  (Ok {| s_month := default now month;
         s_income := total "income" (default now month) (transactions (self w));
         s_expense := total "expense" (default now month) (transactions (self w));
         s_balance :=
           num_sub (total "income" (default now month) (transactions (self w)))
                   (total "expense" (default now month) (transactions (self w)));
         s_limit := expense_limits (self w) !! default now month;
         s_status :=
           match expense_limits (self w) !! default now month with
           | None => "No limit set"
           | Some l =>
               if num_le (total "expense" (default now month) (transactions (self w))) l
               then "Within limit" else "Limit exceeded"
           end |}, w).
Proof.
  intros (Y & M & Hm & HY & HM & Hy). unfold summary, bind, lift.
  change (match month with Some m => m | None => now end) with (default now month).
  rewrite Hm. rewrite strptime_month_Ok by done. done.
Qed.

Lemma summary_Raise w now month :
  ~ accepted_month (default now month) ->
  summary now month w = (Raise ValueError, w).
Proof.
  intros Hn%strptime_month_raises. unfold summary, bind, lift.
  change (match month with Some m => m | None => now end) with (default now month).
  destruct (strptime _ fmt_Y_m) as [|e] eqn:Hm; [done|].
  by rewrite (strptime_raises_ValueError _ _ _ Hm).
Qed.

(** One pass over the transactions with [startswith], or the month first
    and the kind second: the same transactions when the month has seven
    characters. *)
Lemma total_of_kind_of_month kind month (ts : list (Transaction num)) :
  String.length month = 7%nat ->
  total kind month ts = num_sum (amount <$> of_kind kind (of_month month ts)).
Proof.
  intros Hl. unfold total, of_kind, of_month. do 2 f_equal.
  rewrite list_filter_filter. apply list_filter_iff. intros t.
  rewrite andb_true_iff, bool_decide_eq_true, startswith_slice, Hl. done.
Qed.

Lemma load_Ok w : fst (load w) = Ok tt.
Proof.
  unfold load, bind, get_self, read_file. simpl.
  destruct (disk w !! data_file (self w)) as [[|data]|]; simpl; try done.
  unfold try_except, bind, lift. simpl.
  by destruct (Transactions_of_dicts _).
Qed.

Lemma Transactions_of_dicts_asdict (ts : list (Transaction num)) :
  Forall valid_dict (asdict <$> ts) -> Transactions_of_dicts (asdict <$> ts) = Ok ts.
Proof.
  induction ts as [|t ts IH]; csimpl; [done|]. intros [Ht Hts]%Forall_cons.
  unfold Transaction_of_dict. rewrite (Transaction_init_Ok _ _ _ _ Ht). csimpl.
  rewrite (IH Hts). by destruct t.
Qed.

Lemma Transactions_of_dicts_inv (ds : list (tdict num)) ts :
  Transactions_of_dicts ds = Ok ts ->
  Forall valid_dict ds /\ Forall valid_transaction ts.
Proof.
  revert ts. induction ds as [|d ds IH]; simpl; intros ts.
  - intros [= <-]. split; constructor.
  - destruct (Transaction_of_dict d) as [t|] eqn:Hd; [|done].
    destruct (Transactions_of_dicts ds) as [ts'|] eqn:Hds; [|done]. intros [= <-].
    destruct (IH _ eq_refl) as [IH1 IH2].
    unfold Transaction_of_dict in Hd. apply Transaction_init_inv in Hd as [Hv ->].
    split; constructor; done.
Qed.

(** * The invariant of the store *)

Lemma load_store_ok w : store_ok w -> store_ok (snd (load w)).
Proof.
  unfold store_ok, load, bind, get_self, read_file. simpl.
  destruct (disk w !! data_file (self w)) as [[|data]|]; simpl; try done.
  intros _. unfold try_except, bind, lift. simpl.
  destruct (Transactions_of_dicts _) as [ts|] eqn:Hts; simpl.
  - by apply Transactions_of_dicts_inv in Hts as [_ ?].
  - constructor.
Qed.

Lemma step_store_ok w w' : step w w' -> store_ok w -> store_ok w'.
Proof.
  intros [ttype amt dt desc w0|month limit w0|now month w0|w0|w0] Hok.
  - destruct (valid_dec ttype amt dt) as [Hv|Hn].
    + rewrite (add_transaction_Ok _ _ _ _ _ Hv). unfold store_ok.
      rewrite save_self. simpl.
      apply Forall_app. split; [done|]. by apply Forall_singleton.
    + by rewrite add_transaction_Raise.
  - destruct (accepted_month_dec month) as [Hv|Hn].
    + rewrite (set_limit_Ok _ _ _ Hv). unfold store_ok. by rewrite save_self.
    + by rewrite (set_limit_Raise _ _ _ Hn).
  - unfold summary, bind, lift. by destruct (strptime _ _).
  - done.
  - by apply load_store_ok.
Qed.

Lemma reachable_store_ok w : reachable w -> store_ok w.
Proof.
  induction 1 as [path files|w w' _ IH Hs].
  - apply load_store_ok. constructor.
  - by eapply step_store_ok.
Qed.

(** What a run of the program saves is a well-formed document. *)
Lemma reachable_well_formed w : reachable w -> well_formed (document_of (self w)).
Proof.
  intros Hr%reachable_store_ok. unfold well_formed. simpl. by apply Forall_fmap.
Qed.

End ProgramFacts.

(** * The claims *)

Section Claims.
Context {num : Type} `{Number num} `{FileSystem}.
Implicit Types (w : world num) (t : Transaction num).

(** C1, as the code has it.  [Transaction(...)] raises, and it is a
    [ValueError], exactly when the kind is neither ["income"] nor
    ["expense"], or the amount is below zero, or the date is not a text
    that [strptime] takes for ["%Y-%m-%d"]: a year, a month and a day that
    exist, the month and the day padded or not.  In these cases
    [add_transaction] raises the same error and leaves the world as it
    was.  In the others the transaction is appended, and [add_transaction]
    raises exactly when [save] then fails to write the data file: a call
    that raises has not always left the sequence as it was. *)
Theorem add_transaction_raises w ttype (amt : num) dt desc :
  (raises (Transaction_init ttype amt dt desc)
   <-> ~ tag ttype \/ num_lt amt num_zero = true \/ ~ accepted_date dt)
  /\ (raises (fst (add_transaction ttype amt dt desc w))
      <-> (~ tag ttype \/ num_lt amt num_zero = true \/ ~ accepted_date dt)
          \/ write_fault (data_file (self w)) <> None)
  /\ (~ tag ttype \/ num_lt amt num_zero = true \/ ~ accepted_date dt ->
      Transaction_init ttype amt dt desc = Raise ValueError
      /\ add_transaction ttype amt dt desc w = (Raise ValueError, w))
  /\ (valid ttype amt dt ->
      transactions (self (snd (add_transaction ttype amt dt desc w)))
      = transactions (self w)
        ++ [{| type := ttype; amount := amt; date := dt; description := desc |}]).
Proof.
  rewrite <- not_valid, Transaction_init_raises.
  destruct (valid_dec ttype amt dt) as [Hv|Hn].
  - rewrite (add_transaction_Ok _ _ _ _ _ Hv), save_raises, save_self. simpl. tauto.
  - rewrite (add_transaction_Raise _ _ _ _ _ Hn). simpl.
    assert (Ht : Transaction_init ttype amt dt desc = Raise ValueError).
    { pose proof (proj2 (Transaction_init_raises _ _ _ desc) Hn) as Hr.
      destruct (Transaction_init ttype amt dt desc) as [|e] eqn:Ht; [done|].
      by rewrite (Transaction_init_ValueError _ _ _ _ _ Ht). }
    split; [tauto|]. split; [tauto|]. split; [done|]. by intros Hv.
Qed.

(** C2, as the code has it.  [set_limit] checks the month and not the
    limit.  When the month is not a text that [strptime] takes for
    ["%Y-%m"] (a year and a month that exist, the month padded or not) it
    raises [ValueError] and leaves the world as it was.  Otherwise,
    whatever the limit is, negative or not, the limit stored for that
    month becomes the one given and the transactions stay; the call then
    returns exactly when [save] writes the data file, and raises, with the
    limit already stored, when it does not. *)
Theorem set_limit_checks_month_only w month (limit : num) :
  (raises (fst (set_limit month limit w))
   <-> ~ accepted_month month \/ write_fault (data_file (self w)) <> None)
  /\ (~ accepted_month month -> set_limit month limit w = (Raise ValueError, w))
  /\ (accepted_month month ->
      expense_limits (self (snd (set_limit month limit w)))
      = <[month := limit]> (expense_limits (self w))
      /\ expense_limits (self (snd (set_limit month limit w))) !! month = Some limit
      /\ transactions (self (snd (set_limit month limit w))) = transactions (self w)
      /\ (fst (set_limit month limit w) = Ok tt
          <-> write_fault (data_file (self w)) = None)).
Proof.
  destruct (accepted_month_dec month) as [Hv|Hn].
  - rewrite (set_limit_Ok _ _ _ Hv), save_raises, save_returns, save_self. simpl.
    rewrite lookup_insert_eq. tauto.
  - rewrite (set_limit_Raise _ _ _ Hn). simpl. tauto.
Qed.

(** C3.  For every store and every month of the form [YYYY-MM],
    [summary] returns, and leaves the store as it was; its income is the
    sum of the amounts of the income transactions among those whose date
    begins with the month (its first seven characters are the month), its
    expense the same sum over the expense transactions, and its balance
    the income minus the expense. *)
Theorem summary_sums_the_month w now month :
  YYYY_MM month = true ->
  exists r,
    summary now (Some month) w = (Ok r, w)
    /\ s_month r = month
    /\ s_income r
       = num_sum (amount <$> of_kind "income" (of_month month (transactions (self w))))
    /\ s_expense r
       = num_sum (amount <$> of_kind "expense" (of_month month (transactions (self w))))
    /\ s_balance r = num_sub (s_income r) (s_expense r).
Proof.
  intros Hm. pose proof (YYYY_MM_length _ Hm) as Hl.
  apply YYYY_MM_accepted in Hm.
  eexists. split; [by apply (summary_Ok w now (Some month))|]. simpl.
  by rewrite !total_of_kind_of_month.
Qed.

(** C4.  For every store and every month that [summary] takes (given, or
    the current one when none is given), the status is ["No limit set"]
    when no limit is stored for the month; otherwise ["Within limit"] when
    the expense is at most the limit, equality included, and
    ["Limit exceeded"] when it is not. *)
Theorem summary_status w now month :
  accepted_month (default now month) ->
  exists r,
    summary now month w = (Ok r, w)
    /\ s_limit r = expense_limits (self w) !! default now month
    /\ (s_limit r = None -> s_status r = "No limit set")
    /\ (forall l, s_limit r = Some l -> num_le (s_expense r) l = true ->
          s_status r = "Within limit")
    /\ (forall l, s_limit r = Some l -> num_le (s_expense r) l = false ->
          s_status r = "Limit exceeded").
Proof.
  intros Hm. eexists. split; [by apply summary_Ok|]. simpl.
  destruct (expense_limits (self w) !! default now month) as [l|]; repeat split; try done.
  - by intros l' [= <-] ->.
  - by intros l' [= <-] ->.
Qed.

(** C5.  For every valid kind, amount and date, and any description,
    [add_transaction] appends one transaction with those four fields at
    the end: the sequence is one longer, what was stored stays at its
    index, and the limits are untouched.  The call returns when [save]
    then writes the data file. *)
Theorem add_transaction_appends w ttype (amt : num) dt desc :
  valid ttype amt dt ->
  transactions (self (snd (add_transaction ttype amt dt desc w)))
  = transactions (self w)
    ++ [{| type := ttype; amount := amt; date := dt; description := desc |}]
  /\ length (transactions (self (snd (add_transaction ttype amt dt desc w))))
     = S (length (transactions (self w)))
  /\ (forall (i : nat) t, transactions (self w) !! i = Some t ->
        transactions (self (snd (add_transaction ttype amt dt desc w))) !! i = Some t)
  /\ expense_limits (self (snd (add_transaction ttype amt dt desc w)))
     = expense_limits (self w)
  /\ (fst (add_transaction ttype amt dt desc w) = Ok tt
      <-> write_fault (data_file (self w)) = None).
Proof.
  intros Hv. rewrite (add_transaction_Ok _ _ _ _ _ Hv), save_returns, save_self. simpl.
  repeat split; try done.
  - rewrite length_app. simpl. lia.
  - intros i t Hi. rewrite lookup_app_l; [done|]. by eapply lookup_lt_Some.
Qed.

(** C6, as the code has it.  For every store, [months] returns, without
    touching the store, a sequence that is sorted by the order on strings,
    has no duplicate, and holds exactly the texts of the first seven
    characters of the dates of the transactions; it is empty when there is
    no transaction.  An entry is of the form [YYYY-MM] when the dates are
    of the form [YYYY-MM-DD].  In a store whose dates passed the
    constructor an entry may also be a year, a dash, a month of one digit
    and a dash, which is not of the form [YYYY-MM]. *)
Theorem months_sorted_distinct w :
  exists ms,
    months w = (Ok ms, w)
    /\ StronglySorted String.le ms
    /\ NoDup ms
    /\ (forall m, m ∈ ms <-> exists t, t ∈ transactions (self w) /\ first_seven m (date t))
    /\ (transactions (self w) = [] -> ms = [])
    /\ (Forall (fun t => YYYY_MM_DD (date t) = true) (transactions (self w)) ->
        Forall (fun m => YYYY_MM m = true) ms)
    /\ (Forall valid_transaction (transactions (self w)) ->
        Forall (fun m => YYYY_MM m = true \/ (year_month_dash m /\ YYYY_MM m = false)) ms).
Proof.
  eexists. split; [reflexivity|].
  set (S := list_to_set _ : gset string).
  assert (Hperm : sorted S ≡ₚ elements S) by apply merge_sort_Permutation.
  assert (Hin : forall m, m ∈ sorted S <->
            exists t, t ∈ transactions (self w) /\ m = slice_to 7 (date t)).
  { intros m. rewrite Hperm, elem_of_elements. unfold S.
    rewrite elem_of_list_to_set, list_elem_of_fmap.
    split; intros (t & Ht1 & Ht2); exists t; done. }
  repeat split.
  - apply (StronglySorted_merge_sort _).
  - rewrite Hperm. apply NoDup_elements.
  - intros (t & Ht & ->)%Hin. exists t. by rewrite first_seven_slice.
  - intros (t & Ht & Hm%first_seven_slice). apply Hin. by exists t.
  - intros Hnil. unfold S, sorted. rewrite Hnil.
    rewrite fmap_nil. change (list_to_set []) with (∅ : gset string).
    by rewrite elements_empty.
  - intros Hall. apply Forall_forall. intros m (t & Ht & ->)%Hin.
    apply YYYY_MM_DD_prefix. by eapply (proj1 (Forall_forall _ _)) in Hall.
  - intros Hall. apply Forall_forall. intros m (t & Ht & ->)%Hin.
    eapply (proj1 (Forall_forall _ _)) in Hall; [|done].
    destruct Hall as (_ & _ & Hd). apply accepted_date_prefix in Hd as [Hd|Hd]; [by left|].
    right. split; [done|]. by apply year_month_dash_not_YYYY_MM.
Qed.

(** C7.  Round trip: for every store whose document is well formed (each
    entry would pass the constructor), when [save] returns, a tracker
    constructed on the file just written holds the same transactions in
    the same order and the same limits.  [save] leaves the store as it is
    and returns exactly when the file system writes the data file. *)
Theorem save_load_round_trip w :
  well_formed (document_of (self w)) ->
  fst (save w) = Ok tt ->
  BudgetTracker_init (data_file (self w)) (disk (snd (save w)))
  = (Ok tt, {| self := self w; disk := disk (snd (save w)) |})
  /\ self (snd (save w)) = self w
  /\ write_fault (data_file (self w)) = None.
Proof.
  unfold well_formed. simpl. intros Hwf Hs%save_returns.
  rewrite (save_writes _ Hs). simpl. split; [|done].
  unfold BudgetTracker_init, load, bind, get_self, read_file. simpl.
  rewrite lookup_insert_eq. unfold try_except, bind, json_load, ret, lift. simpl.
  rewrite (Transactions_of_dicts_asdict _ Hwf). simpl.
  by rewrite tracker_eta.
Qed.

(** C8.  Constructing a tracker never raises and never writes.  When the
    file is absent, or is not a document, or is a document with an entry
    that the constructor of [Transaction] rejects, the tracker starts with
    no transaction and no limit.  [load] itself never raises. *)
Theorem load_swallows_failures path (files : gmap string (file_text num)) :
  fst (BudgetTracker_init path files) = Ok tt
  /\ disk (snd (BudgetTracker_init path files)) = files
  /\ ((files !! path = None
       \/ files !! path = Some NotJson
       \/ exists data, files !! path = Some (Json data) /\ ~ well_formed data) ->
      self (snd (BudgetTracker_init path files)) = empty_tracker path)
  /\ (forall w, fst (load w) = Ok tt).
Proof.
  split; [apply load_Ok|]. split; [|split; [|apply load_Ok]].
  - unfold BudgetTracker_init, load, bind, get_self, read_file. simpl.
    destruct (files !! path) as [[|data]|]; simpl; try done.
    unfold try_except, bind, lift. simpl.
    by destruct (Transactions_of_dicts _).
  - unfold BudgetTracker_init, load, bind, get_self, read_file. simpl.
    intros [->|[->|(data & -> & Hn)]]; simpl; try done.
    unfold try_except, bind, lift. simpl.
    destruct (Transactions_of_dicts _) as [ts|] eqn:Hts; simpl; [|done].
    destruct Hn. by apply Transactions_of_dicts_inv in Hts as [? _].
Qed.

(** C9.  [summary] and [months] are read-only: whether they return or
    raise, the world after the call is the world before it; and their
    outcome depends on nothing but the transactions, the limits and, for
    [summary], the month given or else the clock. *)
Theorem queries_read_only w now month :
  snd (summary now month w) = w
  /\ snd (months w) = w
  /\ (forall w',
        transactions (self w') = transactions (self w) ->
        expense_limits (self w') = expense_limits (self w) ->
        fst (summary now month w') = fst (summary now month w)
        /\ fst (months w') = fst (months w)).
Proof.
  split; [|split].
  - unfold summary, bind, lift. by destruct (strptime _ _).
  - done.
  - intros w' Ht Hl. unfold summary, months, bind, lift, get_self, ret.
    destruct (strptime _ _); simpl; by rewrite ?Ht, ?Hl.
Qed.

End Claims.

(** * Runs on concrete worlds

    The worlds are run on [plain_files], where the data file of the
    default name can be written and the file of the empty name cannot. *)

Section PlainRuns.
#[local] Existing Instance plain_files.

Example strptime_leap_day : strptime "2024-02-29" fmt_Y_m_d = Ok (2024, 2, 29).
Proof. reflexivity. Qed.

Example strptime_no_leap_day : strptime "2023-02-29" fmt_Y_m_d = Raise ValueError.
Proof. reflexivity. Qed.

Example strptime_text_left : strptime "2024-01-311" fmt_Y_m_d = Raise ValueError.
Proof. reflexivity. Qed.

Example strptime_blank_day : strptime "2024-12- 7" fmt_Y_m_d = Ok (2024, 12, 7).
Proof. reflexivity. Qed.

Example strptime_month_13 : strptime "2024-13" fmt_Y_m = Raise ValueError.
Proof. reflexivity. Qed.

Example strptime_year_0 : strptime "0000-01" fmt_Y_m = Raise ValueError.
Proof. reflexivity. Qed.

Example set_limit_month_13 : set_limit "2024-13" 100 w0 = (Raise ValueError, w0).
Proof. reflexivity. Qed.

Example scenario_A :
  fst (summary "2024-06" (Some "2024-01") wA)
  = Ok {| s_month := "2024-01"; s_income := 1000; s_expense := 400; s_balance := 600;
          s_limit := None; s_status := "No limit set" |}.
Proof. reflexivity. Qed.

Example scenario_B :
  fst (summary "2024-06" (Some "2024-01") wB)
  = Ok {| s_month := "2024-01"; s_income := 1000; s_expense := 400; s_balance := 600;
          s_limit := Some 300; s_status := "Limit exceeded" |}.
Proof. vm_compute. reflexivity. Qed.

Example scenario_C :
  fst (summary "2024-06" (Some "2024-02") wC)
  = Ok {| s_month := "2024-02"; s_income := 0; s_expense := 500; s_balance := -500;
          s_limit := Some 500; s_status := "Within limit" |}.
Proof. vm_compute. reflexivity. Qed.

Example scenario_D : fst (months wD) = Ok ["2024-01"; "2024-03"].
Proof. vm_compute. reflexivity. Qed.

(** The prefix of a date written without padding is not a month. *)
Example months_of_unpadded_date :
  fst (months (snd (add_transaction "income" 1 "2024-1-5" "gift" w0))) = Ok ["2024-1-"].
Proof. vm_compute. reflexivity. Qed.

Example summary_empty_store :
  fst (summary "2024-06" (Some "2024-01") w0)
  = Ok {| s_month := "2024-01"; s_income := 0; s_expense := 0; s_balance := 0;
          s_limit := None; s_status := "No limit set" |}.
Proof. reflexivity. Qed.

Example scenario_B_float :
  fst (summary "2024-01" None wF)
  = Ok {| s_month := "2024-01"; s_income := 1000%float; s_expense := 400%float;
          s_balance := 600%float; s_limit := Some 300%float;
          s_status := "Limit exceeded" |}.
Proof. vm_compute. reflexivity. Qed.

Lemma reachable_w0 : reachable w0.
Proof.
  assert (Hw : w0 = snd (BudgetTracker_init DATA_FILE ∅)) by reflexivity.
  rewrite Hw. apply reachable_init.
Qed.

Lemma reachable_wA : reachable wA.
Proof.
  unfold wA.
  eapply reachable_step; [|apply step_add_transaction].
  eapply reachable_step; [|apply step_add_transaction].
  apply reachable_w0.
Qed.

Lemma reachable_wU : reachable wU.
Proof.
  unfold wU.
  eapply reachable_step; [|apply step_add_transaction].
  eapply reachable_step; [|apply step_add_transaction].
  apply reachable_w0.
Qed.

(** C1 fails as stated, twice.  The date ["2024-1-5"] is not of the form
    [YYYY-MM-DD], the kind is a tag and the amount is not below zero, and
    [add_transaction] returns and stores the transaction.  And on a
    tracker whose data file has the empty name, a call with a date of the
    form [YYYY-MM-DD] raises, in [save], after the transaction has been
    appended. *)
Lemma add_transaction_takes_unpadded_date :
  YYYY_MM_DD "2024-1-5" = false
  /\ tag "income"
  /\ num_lt 1 num_zero = false
  /\ fst (add_transaction "income" 1 "2024-1-5" "gift" w0) = Ok tt
  /\ transactions (self (snd (add_transaction "income" 1 "2024-1-5" "gift" w0)))
     = [{| type := "income"; amount := 1; date := "2024-1-5"; description := "gift" |}]
  /\ YYYY_MM_DD "2024-01-05" = true
  /\ transactions (self w_unnamed) = []
  /\ fst (add_transaction "income" 1 "2024-01-05" "gift" w_unnamed) = Raise OSError
  /\ transactions (self (snd (add_transaction "income" 1 "2024-01-05" "gift" w_unnamed)))
     = [{| type := "income"; amount := 1; date := "2024-01-05"; description := "gift" |}].
Proof. repeat split. by left. Qed.

(** C2 fails as stated: a limit below zero and a month that is not of the
    form [YYYY-MM] are both taken, and stored; and on a tracker whose data
    file has the empty name, a call with a month of the form [YYYY-MM]
    raises, in [save], after the limit has been stored. *)
Lemma set_limit_takes_negative_limit :
  num_lt (-5) num_zero = true
  /\ fst (set_limit "2024-01" (-5) w0) = Ok tt
  /\ expense_limits (self (snd (set_limit "2024-01" (-5) w0))) !! "2024-01" = Some (-5)
  /\ YYYY_MM "2024-1" = false
  /\ fst (set_limit "2024-1" 100 w0) = Ok tt
  /\ expense_limits (self (snd (set_limit "2024-1" 100 w0))) !! "2024-1" = Some 100
  /\ YYYY_MM "2024-01" = true
  /\ expense_limits (self w_unnamed) !! "2024-01" = None
  /\ fst (set_limit "2024-01" 100 w_unnamed) = Raise OSError
  /\ expense_limits (self (snd (set_limit "2024-01" 100 w_unnamed))) !! "2024-01"
     = Some 100.
Proof. repeat split; vm_compute; reflexivity. Qed.

(** C6 fails as stated: after two calls of [add_transaction] that return,
    the second with the date ["2024-1-5"], [months] lists ["2024-1-"],
    which is not of the form [YYYY-MM] and which [summary] does not take
    for a month. *)
Lemma months_lists_a_non_month :
  fst (add_transaction "income" 1000 "2024-01-05" "pay" w0) = Ok tt
  /\ fst (add_transaction "income" 1 "2024-1-5" "gift"
            (snd (add_transaction "income" 1000 "2024-01-05" "pay" w0))) = Ok tt
  /\ fst (months wU) = Ok ["2024-01"; "2024-1-"]
  /\ YYYY_MM "2024-1-" = false
  /\ fst (summary "2024-06" (Some "2024-1-") wU) = Raise ValueError.
Proof. repeat split; vm_compute; reflexivity. Qed.

Lemma summary_sums_the_month_witness :
  exists r,
    summary "2024-06" (Some "2024-01") wA = (Ok r, wA)
    /\ s_month r = "2024-01"
    /\ s_income r
       = num_sum (amount <$> of_kind "income" (of_month "2024-01" (transactions (self wA))))
    /\ s_expense r
       = num_sum (amount <$> of_kind "expense" (of_month "2024-01" (transactions (self wA))))
    /\ s_balance r = num_sub (s_income r) (s_expense r).
Proof. apply (summary_sums_the_month wA "2024-06" "2024-01"). reflexivity. Defined.

Lemma summary_status_witness :
  exists r,
    summary "2024-06" (Some "2024-01") wB = (Ok r, wB)
    /\ s_limit r = expense_limits (self wB) !! "2024-01"
    /\ (s_limit r = None -> s_status r = "No limit set")
    /\ (forall l, s_limit r = Some l -> num_le (s_expense r) l = true ->
          s_status r = "Within limit")
    /\ (forall l, s_limit r = Some l -> num_le (s_expense r) l = false ->
          s_status r = "Limit exceeded").
Proof.
  apply (summary_status wB "2024-06" (Some "2024-01")).
  apply YYYY_MM_accepted. reflexivity.
Defined.

Lemma add_transaction_appends_witness :
  transactions (self (snd (add_transaction "income" 1000 "2024-01-05" "pay" w0)))
  = transactions (self w0)
       ++ [{| type := "income"; amount := 1000; date := "2024-01-05";
              description := "pay" |}]
  /\ length (transactions (self (snd (add_transaction "income" 1000 "2024-01-05" "pay" w0))))
     = S (length (transactions (self w0)))
  /\ (forall (i : nat) t, transactions (self w0) !! i = Some t ->
        transactions (self (snd (add_transaction "income" 1000 "2024-01-05" "pay" w0))) !! i
        = Some t)
  /\ expense_limits (self (snd (add_transaction "income" 1000 "2024-01-05" "pay" w0)))
     = expense_limits (self w0)
  /\ (fst (add_transaction "income" 1000 "2024-01-05" "pay" w0) = Ok tt
      <-> write_fault (data_file (self w0)) = None).
Proof.
  apply (add_transaction_appends w0 "income" 1000 "2024-01-05" "pay").
  split; [by left|]. split; [reflexivity|].
  apply YYYY_MM_DD_accepted. reflexivity.
Defined.

Lemma save_load_round_trip_witness :
  BudgetTracker_init (data_file (self wA)) (disk (snd (save wA)))
  = (Ok tt, {| self := self wA; disk := disk (snd (save wA)) |})
  /\ self (snd (save wA)) = self wA
  /\ write_fault (data_file (self wA)) = None.
Proof.
  apply (save_load_round_trip wA); [|reflexivity].
  change (Forall valid_dict
            [ {| d_type := "income"; d_amount := 1000; d_date := "2024-01-05";
                 d_description := "pay" |};
              {| d_type := "expense"; d_amount := 400; d_date := "2024-01-10";
                 d_description := "rent" |} ]).
  repeat constructor; try (by left); try (by right);
    apply YYYY_MM_DD_accepted; reflexivity.
Defined.

(** C10.  The month ["2024-1"] is not of the form [YYYY-MM], yet
    [set_limit] and [summary] take it; and [summary] then counts the
    transactions of October, November and December 2024 together (those
    whose date begins with ["2024-1"]), that of 2024-10-05 among them, and
    not the one of January.  The store holds expenses of 7 on 2024-10-05,
    5 on 2024-11-20 and 1 on 2024-01-15, and an income of 3 on
    2024-12-01. *)
Theorem unpadded_month_spans_months :
  YYYY_MM "2024-1" = false
  /\ fst (set_limit "2024-1" 100 w10) = Ok tt
  /\ summary "2024-06" (Some "2024-1") w10
     = (Ok {| s_month := "2024-1"; s_income := 3; s_expense := 12; s_balance := -9;
              s_limit := None; s_status := "No limit set" |}, w10)
  /\ startswith "2024-10-05" "2024-1" = true
  /\ startswith "2024-11-20" "2024-1" = true
  /\ startswith "2024-12-01" "2024-1" = true
  /\ startswith "2024-01-15" "2024-1" = false
  /\ fst (summary "2024-06" (Some "2024-1")
            (snd (add_transaction "expense" 7 "2024-10-05" "a" w0)))
     = Ok {| s_month := "2024-1"; s_income := 0; s_expense := 7; s_balance := -7;
             s_limit := None; s_status := "No limit set" |}.
Proof. repeat split; vm_compute; reflexivity. Qed.

End PlainRuns.

(** * More about the store *)

Section StoreFacts.
Context {num : Type} `{Number num} `{FileSystem}.
Implicit Types (w : world num) (t : Transaction num).

Lemma save_Ok_inv w w' :
  save w = (Ok tt, w') ->
  write_fault (data_file (self w)) = None
  /\ w' = {| self := self w;
             disk := <[data_file (self w) := Json (document_of (self w))]> (disk w) |}.
Proof.
  intros Hs. assert (Hf : write_fault (data_file (self w)) = None).
  { apply save_returns. by rewrite Hs. }
  rewrite (save_writes _ Hf) in Hs. split; [done|]. congruence.
Qed.

Lemma summary_world w now month : snd (summary now month w) = w.
Proof. unfold summary, bind, lift. by destruct (strptime _ _). Qed.

(** [summary] and [months] look at [self] only. *)
Lemma summary_of_self w w' now month :
  self w' = self w -> fst (summary now month w') = fst (summary now month w).
Proof.
  intros Hs. unfold summary, bind, lift, get_self, ret.
  destruct (strptime _ _); simpl; by rewrite ?Hs.
Qed.

Lemma save_data_file w : data_file (self (snd (save w))) = data_file (self w).
Proof. by rewrite save_self. Qed.

Lemma step_data_file w w' : step w w' -> data_file (self w') = data_file (self w).
Proof.
  intros [ttype amt dt desc w0|month limit w0|now month w0|w0|w0].
  - destruct (valid_dec ttype amt dt) as [Hv|Hn].
    + by rewrite (add_transaction_Ok _ _ _ _ _ Hv), save_self.
    + by rewrite add_transaction_Raise.
  - destruct (accepted_month_dec month) as [Hv|Hn].
    + by rewrite (set_limit_Ok _ _ _ Hv), save_self.
    + by rewrite (set_limit_Raise _ _ _ Hn).
  - by rewrite summary_world.
  - done.
  - unfold load, bind, get_self, read_file. simpl.
    destruct (disk w0 !! data_file (self w0)) as [[|data]|]; simpl; try done.
    unfold try_except, bind, lift. simpl. by destruct (Transactions_of_dicts _).
Qed.

Lemma mutation_saved w w' :
  (exists ttype amt dt desc, add_transaction ttype amt dt desc w = (Ok tt, w'))
  \/ (exists month limit, set_limit month limit w = (Ok tt, w')) ->
  data_file (self w') = data_file (self w)
  /\ disk w' !! data_file (self w') = Some (Json (document_of (self w')))
  /\ (forall path, path <> data_file (self w) -> disk w' !! path = disk w !! path).
Proof.
  intros [(ttype & amt & dt & desc & Hc)|(month & limit & Hc)].
  - destruct (valid_dec ttype amt dt) as [Hv|Hn].
    + rewrite (add_transaction_Ok _ _ _ _ _ Hv) in Hc.
      apply save_Ok_inv in Hc as [_ ->]. simpl.
      rewrite lookup_insert_eq. repeat split. intros path Hp. by rewrite lookup_insert_ne.
    + by rewrite (add_transaction_Raise _ _ _ _ _ Hn) in Hc.
  - destruct (accepted_month_dec month) as [Hv|Hn].
    + rewrite (set_limit_Ok _ _ _ Hv) in Hc.
      apply save_Ok_inv in Hc as [_ ->]. simpl.
      rewrite lookup_insert_eq. repeat split. intros path Hp. by rewrite lookup_insert_ne.
    + by rewrite (set_limit_Raise _ _ _ Hn) in Hc.
Qed.

Lemma mutation_store_ok w w' :
  (exists ttype amt dt desc, add_transaction ttype amt dt desc w = (Ok tt, w'))
  \/ (exists month limit, set_limit month limit w = (Ok tt, w')) ->
  store_ok w -> store_ok w'.
Proof.
  intros [(ttype & amt & dt & desc & Hc)|(month & limit & Hc)] Hok.
  - eapply step_store_ok; [|exact Hok].
    replace w' with (snd (add_transaction ttype amt dt desc w)) by by rewrite Hc.
    constructor.
  - eapply step_store_ok; [|exact Hok].
    replace w' with (snd (set_limit month limit w)) by by rewrite Hc.
    constructor.
Qed.

Lemma init_on_saved (me : BudgetTracker num) files :
  Forall valid_transaction (transactions me) ->
  files !! data_file me = Some (Json (document_of me)) ->
  BudgetTracker_init (data_file me) files = (Ok tt, {| self := me; disk := files |}).
Proof.
  intros Hok Hf. unfold BudgetTracker_init, load, bind, get_self, read_file. simpl.
  rewrite Hf. unfold try_except, bind, json_load, ret, lift. simpl.
  rewrite Transactions_of_dicts_asdict by by apply Forall_fmap. simpl.
  by rewrite tracker_eta.
Qed.

Lemma mutation_restarts w w' :
  store_ok w ->
  (exists ttype amt dt desc, add_transaction ttype amt dt desc w = (Ok tt, w'))
  \/ (exists month limit, set_limit month limit w = (Ok tt, w')) ->
  restarts w'.
Proof.
  intros Hok Hc. pose proof (mutation_store_ok w w' Hc Hok) as Hok'.
  destruct (mutation_saved w w' Hc) as (_ & Hd & _). unfold restarts.
  rewrite (init_on_saved (self w') (disk w') Hok' Hd). by destruct w'.
Qed.

Lemma Transactions_of_dicts_Ok (ds : list (tdict num)) :
  Forall valid_dict ds -> Transactions_of_dicts ds = Ok (of_dict <$> ds).
Proof.
  induction ds as [|d ds IH]; csimpl; [done|]. intros [Hd Hds]%Forall_cons.
  unfold Transaction_of_dict. rewrite (Transaction_init_Ok _ _ _ _ Hd). csimpl.
  by rewrite (IH Hds).
Qed.

Lemma load_absent w : disk w !! data_file (self w) = None -> load w = (Ok tt, w).
Proof. unfold load, bind, get_self, read_file. simpl. by intros ->. Qed.

Lemma load_again w :
  is_Some (disk w !! data_file (self w)) ->
  snd (load w) = snd (BudgetTracker_init (data_file (self w)) (disk w)).
Proof.
  intros [txt Ht]. unfold BudgetTracker_init, load, bind, get_self, read_file. simpl.
  rewrite Ht. destruct txt as [|data]; simpl; [done|].
  unfold try_except, bind, lift. simpl. by destruct (Transactions_of_dicts _).
Qed.

Lemma init_restarts path (files : gmap string (file_text num)) :
  restarts (snd (BudgetTracker_init path files))
  /\ data_file (self (snd (BudgetTracker_init path files))) = path
  /\ disk (snd (BudgetTracker_init path files)) = files.
Proof.
  assert (Hd : data_file (self (snd (BudgetTracker_init path files))) = path
               /\ disk (snd (BudgetTracker_init path files)) = files).
  { unfold BudgetTracker_init, load, bind, get_self, read_file. simpl.
    destruct (files !! path) as [[|data]|]; simpl; try done.
    unfold try_except, bind, lift. simpl. by destruct (Transactions_of_dicts _). }
  split; [|done]. destruct Hd as [Hf Hd].
  unfold restarts. rewrite Hf, Hd.
  pose proof (load_Ok (num:=num) {| self := empty_tracker path; disk := files |}) as Ho.
  unfold BudgetTracker_init in *. unfold empty_tracker in Ho.
  destruct (load _) as [o w]. simpl in *. by subst o.
Qed.

(** A call that passes the validation returns when the data file can be
    written. *)
Lemma add_transaction_returns w ttype (amt : num) dt desc :
  valid ttype amt dt -> writable w ->
  add_transaction ttype amt dt desc w
  = (Ok tt, snd (add_transaction ttype amt dt desc w)).
Proof.
  intros Hv Hw. rewrite (add_transaction_Ok _ _ _ _ _ Hv).
  by rewrite save_writes.
Qed.

Lemma set_limit_returns w month (limit : num) :
  accepted_month month -> writable w ->
  set_limit month limit w = (Ok tt, snd (set_limit month limit w)).
Proof.
  intros Hv Hw. rewrite (set_limit_Ok _ _ _ Hv).
  by rewrite save_writes.
Qed.

Lemma step_restarts w w' :
  step w w' -> store_ok w -> (writable w -> restarts w) -> writable w' -> restarts w'.
Proof.
  intros Hs Hok Hr Hw'.
  assert (Hw : writable w).
  { unfold writable in *. by rewrite <- (step_data_file _ _ Hs). }
  specialize (Hr Hw).
  destruct Hs as [ttype amt dt desc w0|month limit w0|now month w0|w0|w0].
  - destruct (valid_dec ttype amt dt) as [Hv|Hn].
    + apply (mutation_restarts w0); [done|]. left.
      exists ttype, amt, dt, desc. by apply add_transaction_returns.
    + by rewrite add_transaction_Raise.
  - destruct (accepted_month_dec month) as [Hv|Hn].
    + apply (mutation_restarts w0); [done|]. right.
      exists month, limit. by apply set_limit_returns.
    + by rewrite (set_limit_Raise _ _ _ Hn).
  - by rewrite summary_world.
  - done.
  - destruct (disk w0 !! data_file (self w0)) as [txt|] eqn:Hf.
    + rewrite load_again by (by rewrite Hf). apply init_restarts.
    + by rewrite (load_absent _ Hf).
Qed.

Lemma total_app kind month (ts1 ts2 : list (Transaction num)) :
  total kind month (ts1 ++ ts2)
  = num_sum (counted kind month ts1 ++ counted kind month ts2).
Proof. unfold total, counted. by rewrite filter_app, fmap_app. Qed.

Lemma months_elem w m :
  m ∈ sorted (list_to_set ((fun t => slice_to 7 (date t)) <$> transactions (self w)))
  <-> exists t, t ∈ transactions (self w) /\ m = slice_to 7 (date t).
Proof.
  unfold sorted. rewrite merge_sort_Permutation, elem_of_elements.
  rewrite elem_of_list_to_set, list_elem_of_fmap.
  split; intros (t & Ht1 & Ht2); exists t; done.
Qed.


(** X2.  Setting the limit of a month twice leaves the world, file
    included, as the second call alone would: the last write wins, and a
    repeated call changes nothing. *)
Theorem set_limit_last_write_wins w month (l1 l2 : num) :
  accepted_month month ->
  snd (set_limit month l2 (snd (set_limit month l1 w))) = snd (set_limit month l2 w)
  /\ snd (set_limit month l1 (snd (set_limit month l1 w))) = snd (set_limit month l1 w).
Proof.
  intros Hm. rewrite !(set_limit_Ok _ _ _ Hm).
  unfold save, bind, get_self, write_file. simpl.
  destruct (write_fault (data_file (self w))) as [[e|e]|] eqn:Hf; simpl; rewrite ?Hf; simpl;
    by rewrite !insert_insert_eq.
Qed.

(** X3.  The limits of two different months do not interfere: setting
    them in either order, whether [save] fails or not, gives stores with
    the same transactions and the same limit for every month, on which
    [summary] and [months] answer alike.  Nothing is said of the order in
    which the dict holds the two months, nor of the text of the file. *)
Theorem set_limit_months_commute w m1 m2 (l1 l2 : num) :
  accepted_month m1 -> accepted_month m2 -> m1 <> m2 ->
  transactions (self (snd (set_limit m2 l2 (snd (set_limit m1 l1 w)))))
  = transactions (self (snd (set_limit m1 l1 (snd (set_limit m2 l2 w)))))
  /\ (forall m,
        expense_limits (self (snd (set_limit m2 l2 (snd (set_limit m1 l1 w))))) !! m
        = expense_limits (self (snd (set_limit m1 l1 (snd (set_limit m2 l2 w))))) !! m)
  /\ expense_limits (self (snd (set_limit m2 l2 (snd (set_limit m1 l1 w))))) !! m1
     = Some l1
  /\ expense_limits (self (snd (set_limit m2 l2 (snd (set_limit m1 l1 w))))) !! m2
     = Some l2
  /\ (forall now month,
        fst (summary now month (snd (set_limit m2 l2 (snd (set_limit m1 l1 w)))))
        = fst (summary now month (snd (set_limit m1 l1 (snd (set_limit m2 l2 w))))))
  /\ fst (months (snd (set_limit m2 l2 (snd (set_limit m1 l1 w)))))
     = fst (months (snd (set_limit m1 l1 (snd (set_limit m2 l2 w))))).
Proof.
  intros H1 H2 Hne.
  assert (Hs : self (snd (set_limit m2 l2 (snd (set_limit m1 l1 w))))
               = self (snd (set_limit m1 l1 (snd (set_limit m2 l2 w))))).
  { rewrite !(set_limit_Ok _ _ _ H1), !(set_limit_Ok _ _ _ H2), !save_self. simpl.
    by rewrite (insert_insert_ne _ m1 m2). }
  split; [by rewrite Hs|]. split; [by rewrite Hs|].
  split; [|split; [|split]].
  - rewrite (set_limit_Ok _ _ _ H2), save_self. simpl.
    rewrite lookup_insert_ne by done.
    rewrite (set_limit_Ok _ _ _ H1), save_self. simpl. by rewrite lookup_insert_eq.
  - rewrite (set_limit_Ok _ _ _ H2), save_self. simpl. by rewrite lookup_insert_eq.
  - intros now month. by apply summary_of_self.
  - unfold months, bind, get_self, ret. simpl. by rewrite Hs.
Qed.

(** X4.  After an [add_transaction] or a [set_limit] that returns, the
    data file holds the document of the store as it now is, the path of
    the data file is what it was, and no other file has been touched. *)
Theorem mutation_is_saved w w' :
  (exists ttype amt dt desc, add_transaction ttype amt dt desc w = (Ok tt, w'))
  \/ (exists month limit, set_limit month limit w = (Ok tt, w')) ->
  data_file (self w') = data_file (self w)
  /\ disk w' !! data_file (self w') = Some (Json (document_of (self w')))
  /\ (forall path, path <> data_file (self w) -> disk w' !! path = disk w !! path).
Proof. apply mutation_saved. Qed.

(** X5.  When the store holds only valid transactions, an
    [add_transaction] or a [set_limit] that returns is durable: a tracker
    constructed afterwards on the same files is the tracker just left. *)
Theorem mutation_survives_restart w w' :
  store_ok w ->
  (exists ttype amt dt desc, add_transaction ttype amt dt desc w = (Ok tt, w'))
  \/ (exists month limit, set_limit month limit w = (Ok tt, w')) ->
  BudgetTracker_init (data_file (self w')) (disk w') = (Ok tt, w').
Proof. apply mutation_restarts. Qed.

(** X6.  Constructing a tracker on a well-formed document gives the
    entries of the document as transactions, in their order, and its
    limits; a document without the key of the transactions gives none, one
    without the key of the limits gives no limit. *)
Theorem load_reads_document path (files : gmap string (file_text num)) data :
  files !! path = Some (Json data) -> well_formed data ->
  BudgetTracker_init path files
  = (Ok tt,
     {| self := {| data_file := path;
                   transactions := of_dict <$> default [] (doc_transactions data);
                   expense_limits := default ∅ (doc_expense_limits data) |};
        disk := files |}).
Proof.
  intros Hf Hwf. unfold BudgetTracker_init, load, bind, get_self, read_file. simpl.
  rewrite Hf. unfold try_except, bind, json_load, ret, lift. simpl.
  by rewrite (Transactions_of_dicts_Ok _ Hwf).
Qed.

(** X7.  [load] called on a tracker that already holds something: when
    the file is absent the store is kept as it is; when the file is not a
    document, or has an entry the constructor rejects, transactions and
    limits are both emptied, whatever they were and even when only one
    entry is bad. *)
Theorem load_keeps_or_resets w :
  (disk w !! data_file (self w) = None -> load w = (Ok tt, w))
  /\ ((disk w !! data_file (self w) = Some NotJson
       \/ exists data, disk w !! data_file (self w) = Some (Json data)
                       /\ ~ well_formed data) ->
      load w = (Ok tt, {| self := empty_tracker (data_file (self w)); disk := disk w |})).
Proof.
  unfold load, bind, get_self, read_file. simpl. split.
  - intros ->. done.
  - intros [->|(data & -> & Hn)]; simpl; [done|].
    unfold try_except, bind, lift. simpl.
    destruct (Transactions_of_dicts _) as [ts|] eqn:Hts; simpl; [|done].
    destruct Hn. by apply Transactions_of_dicts_inv in Hts as [? _].
Qed.

(** X8.  A transaction added with a date that does not begin with a
    month leaves the summary of that month as it was, error included. *)
Theorem add_transaction_other_month w now ttype (amt : num) dt desc month :
  valid ttype amt dt ->
  startswith dt (default now month) = false ->
  fst (summary now month (snd (add_transaction ttype amt dt desc w)))
  = fst (summary now month w).
Proof.
  intros Hv Hs. rewrite (add_transaction_Ok _ _ _ _ _ Hv).
  rewrite (summary_of_self _ _ _ _ (save_self _)).
  destruct (accepted_month_dec (default now month)) as [Hm|Hn].
  - rewrite !(summary_Ok _ _ _ Hm). simpl.
    assert (Ht : forall kind,
      total kind (default now month)
        (transactions (self w) ++
           [{| type := ttype; amount := amt; date := dt; description := desc |}])
      = total kind (default now month) (transactions (self w))).
    { intros kind. rewrite total_app. unfold total, counted. f_equal.
      rewrite filter_cons_False; [by rewrite filter_nil, app_nil_r|].
      simpl. rewrite Hs, andb_false_r. done. }
    by rewrite !Ht.
  - by rewrite !(summary_Raise _ _ _ Hn).
Qed.

(** X9.  A transaction added with a date that begins with a month the
    summary takes: the total of its own kind becomes the sum of the
    amounts counted before followed by the new amount, the total of the
    other kind and the limit stay. *)
Theorem add_transaction_same_month w now ttype (amt : num) dt desc month :
  valid ttype amt dt ->
  accepted_month (default now month) ->
  startswith dt (default now month) = true ->
  exists r r',
    summary now month w = (Ok r, w)
    /\ fst (summary now month (snd (add_transaction ttype amt dt desc w))) = Ok r'
    /\ s_limit r' = s_limit r
    /\ (ttype = "income" ->
        s_expense r' = s_expense r
        /\ s_income r'
           = num_sum (counted "income" (default now month) (transactions (self w)) ++ [amt]))
    /\ (ttype = "expense" ->
        s_income r' = s_income r
        /\ s_expense r'
           = num_sum (counted "expense" (default now month) (transactions (self w)) ++ [amt])).
Proof.
  intros Hv Hm Hs. rewrite (add_transaction_Ok _ _ _ _ _ Hv).
  rewrite (summary_of_self _ _ _ _ (save_self _)).
  rewrite !(summary_Ok _ _ _ Hm). simpl. eexists _, _. split; [done|]. split; [done|].
  simpl. split; [done|].
  split; intros ->; rewrite !total_app; unfold total, counted; split.
  - rewrite filter_cons_False, filter_nil; [by rewrite app_nil_r|]. simpl. done.
  - rewrite filter_cons_True, filter_nil; [done|]. simpl. by rewrite Hs.
  - rewrite filter_cons_False, filter_nil; [by rewrite app_nil_r|]. simpl. done.
  - rewrite filter_cons_True, filter_nil; [done|]. simpl. by rewrite Hs.
Qed.

(** X10.  A limit set for a month leaves the summary of every other
    month as it was; in the summary of its own month income, expense and
    balance stay, the limit is the one set, and the status is
    ["Within limit"] or ["Limit exceeded"] by the expense as it was. *)
Theorem set_limit_and_summary w now month (limit : num) month' :
  accepted_month month ->
  (default now month' <> month ->
   fst (summary now month' (snd (set_limit month limit w))) = fst (summary now month' w))
  /\ exists r r',
       summary now (Some month) w = (Ok r, w)
       /\ fst (summary now (Some month) (snd (set_limit month limit w))) = Ok r'
       /\ s_income r' = s_income r /\ s_expense r' = s_expense r
       /\ s_balance r' = s_balance r
       /\ s_limit r' = Some limit
       /\ s_status r'
          = (if num_le (s_expense r) limit then "Within limit" else "Limit exceeded").
Proof.
  intros Hm. rewrite (set_limit_Ok _ _ _ Hm).
  rewrite !(summary_of_self _ _ _ _ (save_self _)). split.
  - intros Hne. destruct (accepted_month_dec (default now month')) as [Hm'|Hn].
    + rewrite !(summary_Ok _ _ _ Hm'). simpl. by rewrite lookup_insert_ne.
    + by rewrite !(summary_Raise _ _ _ Hn).
  - rewrite !(summary_Ok _ _ (Some month) Hm). simpl. eexists _, _.
    split; [done|]. split; [done|]. simpl. rewrite lookup_insert_eq. done.
Qed.

(** X11.  When every date in the store is of the form [YYYY-MM-DD],
    every month that [months] lists can be handed to [summary]: the call
    returns, and some transaction of the store has a date that begins with
    that month. *)
Theorem listed_months_have_summaries w now ms m :
  Forall (fun t => YYYY_MM_DD (date t) = true) (transactions (self w)) ->
  fst (months w) = Ok ms -> m ∈ ms ->
  (exists r, summary now (Some m) w = (Ok r, w))
  /\ exists t, t ∈ transactions (self w) /\ startswith (date t) m = true.
Proof.
  intros Hall [= <-] (t & Ht & ->)%months_elem.
  assert (Hm : YYYY_MM (slice_to 7 (date t)) = true).
  { apply YYYY_MM_DD_prefix. by eapply (proj1 (Forall_forall _ _)) in Hall. }
  split.
  - eexists. apply (summary_Ok w now (Some _)). by apply YYYY_MM_accepted.
  - exists t. split; [done|]. apply startswith_slice. by rewrite (YYYY_MM_length _ Hm).
Qed.

(** X12.  In every world a program can build from the constructor and
    the methods, whatever the files and the arguments, and whether the
    calls return or raise, each stored transaction has a kind that is a
    tag, an amount not below zero and a date that [strptime] takes.  When
    the data file can be written, constructing a tracker again on the
    files gives that very world; when it cannot, the store may be ahead
    of the file. *)
Theorem program_keeps_store_sound w :
  reachable w ->
  Forall valid_transaction (transactions (self w))
  /\ (write_fault (data_file (self w)) = None ->
      BudgetTracker_init (data_file (self w)) (disk w) = (Ok tt, w)).
Proof.
  intros Hr. split; [by apply reachable_store_ok|].
  induction Hr as [path files|w w' Hr IH Hs].
  - intros _. apply init_restarts.
  - intros Hw. eapply step_restarts; eauto using reachable_store_ok.
Qed.

(** X21.  When the writing of the data file breaks off, [save] raises
    with the store as it was, and the file no longer holds a document: a
    tracker constructed afterwards on the files has no transaction and no
    limit, whatever the store and the file held before. *)
Theorem save_broken_off w e :
  write_fault (data_file (self w)) = Some (CannotWrite e) ->
  fst (save w) = Raise e
  /\ self (snd (save w)) = self w
  /\ disk (snd (save w)) !! data_file (self w) = Some NotJson
  /\ BudgetTracker_init (data_file (self w)) (disk (snd (save w)))
     = (Ok tt, {| self := empty_tracker (data_file (self w));
                  disk := disk (snd (save w)) |}).
Proof.
  intros Hf. rewrite (save_cannot_write _ _ Hf). simpl.
  rewrite lookup_insert_eq. repeat split.
  unfold BudgetTracker_init, load, bind, get_self, read_file. simpl.
  by rewrite lookup_insert_eq.
Qed.

(** X22.  When the data file cannot be opened for writing, a valid
    [add_transaction] raises after it has appended the transaction and
    leaves the files as they were: the store is ahead of the file, and a
    tracker constructed afterwards on the files is the one of before the
    call, without the transaction. *)
Theorem add_transaction_unsaved w ttype (amt : num) dt desc e :
  valid ttype amt dt ->
  write_fault (data_file (self w)) = Some (CannotOpen e) ->
  BudgetTracker_init (data_file (self w)) (disk w) = (Ok tt, w) ->
  fst (add_transaction ttype amt dt desc w) = Raise e
  /\ transactions (self (snd (add_transaction ttype amt dt desc w)))
     = transactions (self w)
       ++ [{| type := ttype; amount := amt; date := dt; description := desc |}]
  /\ disk (snd (add_transaction ttype amt dt desc w)) = disk w
  /\ BudgetTracker_init
       (data_file (self (snd (add_transaction ttype amt dt desc w))))
       (disk (snd (add_transaction ttype amt dt desc w)))
     = (Ok tt, w).
Proof.
  intros Hv Hf Hr. rewrite (add_transaction_Ok _ _ _ _ _ Hv).
  rewrite (save_cannot_open _ e) by done. simpl. done.
Qed.

End StoreFacts.

(** * The shell *)

Section ShellFacts.
Context {num : Type} `{Number num} `{FileSystem} `{Console num}.
Implicit Types (w : world num) (s : session num).

Lemma prompt_float_from_spec msg lines :
  match snd (prompt_float_from msg lines) with
  | Some (val, rest) =>
      num_lt val num_zero = false
      /\ exists skipped l,
           lines = skipped ++ l :: rest
           /\ float_of_str (strip l) = Some val
           /\ Forall not_a_number skipped
  | None => Forall not_a_number lines
  end.
Proof.
  induction lines as [|l lines IH]; simpl; [constructor|].
  destruct (float_of_str (strip l)) as [val|] eqn:Hl.
  - destruct (num_lt val num_zero) eqn:Hv.
    + destruct (prompt_float_from msg lines) as [out [[v rest]|]]; simpl in *.
      * destruct IH as (Hv' & skipped & l' & -> & Hl' & Hs). split; [done|].
        exists (l :: skipped), l'. repeat split; try done.
        constructor; [|done]. unfold not_a_number. by rewrite Hl.
      * constructor; [|done]. unfold not_a_number. by rewrite Hl.
    + simpl. split; [done|]. exists [], l. repeat split; try done.
  - destruct (prompt_float_from msg lines) as [out [[v rest]|]]; simpl in *.
    + destruct IH as (Hv' & skipped & l' & -> & Hl' & Hs). split; [done|].
      exists (l :: skipped), l'. repeat split; try done.
      constructor; [|done]. unfold not_a_number. by rewrite Hl.
    + constructor; [|done]. unfold not_a_number. by rewrite Hl.
Qed.

Lemma prompt_date_from_spec msg fmt lines :
  match snd (prompt_date_from msg fmt lines) with
  | Some (val, rest) =>
      (exists v, strptime val fmt = Ok v)
      /\ exists skipped l,
           lines = skipped ++ l :: rest
           /\ val = strip l
           /\ Forall (fun l' => raises (strptime (strip l') fmt)) skipped
  | None => Forall (fun l' => raises (strptime (strip l') fmt)) lines
  end.
Proof.
  induction lines as [|l lines IH]; simpl; [constructor|].
  destruct (strptime (strip l) fmt) as [v|e] eqn:Hl; simpl.
  - split; [by exists v|]. exists [], l. repeat split; try done.
  - destruct (prompt_date_from msg fmt lines) as [out [[v rest]|]]; simpl in *.
    + destruct IH as (Hv' & skipped & l' & -> & Hl' & Hs). split; [done|].
      exists (l :: skipped), l'. repeat split; try done.
      constructor; [|done]. by rewrite Hl.
    + constructor; [|done]. by rewrite Hl.
Qed.


Lemma add_turn ttype added s :
  tag ttype ->
  match add ttype added s with
  | (inl _, s') => added_turn ttype added s s'
  | (inr e, s') => idle_end e s s'
  end.
Proof.
  intros Ht. unfold add, sh_bind, prompt_float.
  pose proof (prompt_float_from_spec "Amount: " (stdin s)) as Hf.
  destruct (prompt_float_from _ (stdin s)) as [out1 [[amt rest1]|]]; simpl in *;
    [|by repeat split; auto].
  destruct Hf as (Hamt & sk1 & l1 & Hl1 & _ & _).
  unfold prompt_date. simpl.
  pose proof (prompt_date_from_spec "Date (YYYY-MM-DD): " fmt_Y_m_d rest1) as Hd.
  destruct (prompt_date_from _ _ rest1) as [out2 [[dt rest2]|]]; simpl in *;
    [|by repeat split; auto].
  destruct Hd as ([v Hv] & sk2 & l2 & Hl2 & _ & _).
  unfold input. simpl. destruct rest2 as [|desc rest3]; simpl; [by repeat split; auto|].
  assert (Hvalid : valid ttype amt dt).
  { repeat split; eauto using strptime_date_inv. }
  unfold call. simpl.
  destruct (add_transaction ttype amt dt desc (state s)) as [[[]|e] w'] eqn:Ha; simpl.
  - exists amt, dt, desc, (out1 ++ out2 ++ [Prompt "Description: "]).
    rewrite Ha. simpl.
    split; [done|]. split; [done|]. split; [by rewrite <- !app_assoc|].
    rewrite Hl1, Hl2, !length_app. simpl. rewrite !length_app. simpl. lia.
  - exists amt, dt, desc, (out1 ++ out2 ++ [Prompt "Description: "]).
    rewrite Ha. simpl. unfold add_transaction_error.
    rewrite (Transaction_init_Ok _ _ _ desc Hvalid).
    split; [done|]. split; [done|]. split; [by rewrite <- !app_assoc|].
    rewrite Hl1, Hl2, !length_app. simpl. rewrite !length_app. simpl. lia.
Qed.

Lemma set_limit_turn s :
  match menu_set_limit s with
  | (inl _, s') => limit_turn s s'
  | (inr e, s') => idle_end e s s'
  end.
Proof.
  unfold menu_set_limit, sh_bind, prompt_date.
  pose proof (prompt_date_from_spec "Month (YYYY-MM): " fmt_Y_m (stdin s)) as Hd.
  destruct (prompt_date_from _ _ (stdin s)) as [out1 [[month rest1]|]]; simpl in *;
    [|by repeat split; auto].
  destruct Hd as ([v Hv] & sk1 & l1 & Hl1 & _ & _).
  unfold prompt_float. simpl.
  pose proof (prompt_float_from_spec "Limit amount: " rest1) as Hf.
  destruct (prompt_float_from _ rest1) as [out2 [[limit rest2]|]]; simpl in *;
    [|by repeat split; auto].
  destruct Hf as (Hlim & sk2 & l2 & Hl2 & _ & _).
  assert (Hm : accepted_month month) by eauto using strptime_month_inv.
  unfold call. simpl.
  destruct (set_limit month limit (state s)) as [[[]|e] w'] eqn:Ha; simpl.
  - exists month, limit, (out1 ++ out2). rewrite Ha. simpl.
    split; [done|]. split; [done|]. split; [done|].
    split; [by rewrite <- !app_assoc|].
    rewrite Hl1, Hl2, !length_app. simpl. rewrite !length_app. simpl. lia.
  - exists month, limit, (out1 ++ out2). rewrite Ha. simpl.
    unfold set_limit_error. rewrite Hv.
    split; [done|]. split; [done|]. split; [done|].
    split; [by rewrite <- !app_assoc|].
    rewrite Hl1, Hl2, !length_app. simpl. rewrite !length_app. simpl. lia.
Qed.

Lemma menu_eof clock s :
  stdin s = [] ->
  exists out, menu clock s = (inr EOFError, {| state := state s; stdin := []; stdout := out |}).
Proof.
  intros Hs. unfold menu, sh_bind, print, write, input. simpl. rewrite Hs. eauto.
Qed.

Lemma menu_choice clock s l rest :
  stdin s = l :: rest ->
  menu clock s =
  (if decide (strip l = "1") then add "income" "Income added."
   else if decide (strip l = "2") then add "expense" "Expense added."
   else if decide (strip l = "3") then menu_set_limit
   else if decide (strip l = "4") then menu_summary clock
   else if decide (strip l = "5") then menu_months
   else if decide (strip l = "6") then sh_bind (print "Bye.") (fun _ => stop Exit)
   else print "Invalid.") (chosen s rest).
Proof.
  intros Hs. unfold menu, sh_bind, print, write, input. simpl. rewrite Hs. simpl.
  unfold chosen. by rewrite <- !app_assoc.
Qed.

Lemma menu_summary_turn clock s :
  match menu_summary clock s with
  | (inl _, s') => state s' = state s /\ (length (stdin s') < length (stdin s))%nat
  | (inr e, s') => state s' = state s /\ e = EOFError /\ stdin s' = []
  end.
Proof.
  unfold menu_summary, sh_bind, input. destruct (stdin s) as [|l rest] eqn:Hs; simpl; [done|].
  unfold call. simpl.
  pose proof (summary_world (state s) (clock rest)
    (if decide (strip l = EmptyString) then None else Some (strip l))) as Hro.
  destruct (summary _ _ (state s)) as [[r|e] w] eqn:Hsum; simpl in *; subst w;
    unfold sh_bind, print, write; simpl; (split; [done|lia]).
Qed.

Lemma menu_turn clock s :
  match menu clock s with
  | (inl _, s') =>
      (length (stdin s') < length (stdin s))%nat
      /\ (state s' = state s \/ world_turn (state s) (state s'))
  | (inr e, s') =>
      state s' = state s /\ (e = Exit \/ e = EOFError \/ e = Hang)
  end.
Proof.
  destruct (stdin s) as [|l rest] eqn:Hs.
  { destruct (menu_eof clock s Hs) as [out ->]. simpl. auto. }
  rewrite (menu_choice clock s l rest Hs).
  assert (Hlen : length (stdin (chosen s rest)) = length rest) by done.
  repeat case_decide.
  - pose proof (add_turn "income" "Income added." (chosen s rest) (or_introl eq_refl)) as Ht.
    destruct (add _ _ _) as [[[]|e] s']; simpl in *.
    + destruct Ht as (amt & dt & desc & out & Hv & Ha & _ & Hl). simpl in *.
      split; [lia|]. right. rewrite Ha. by apply turn_add.
    + destruct Ht as (? & [->| ->] & _); auto.
  - pose proof (add_turn "expense" "Expense added." (chosen s rest) (or_intror eq_refl)) as Ht.
    destruct (add _ _ _) as [[[]|e] s']; simpl in *.
    + destruct Ht as (amt & dt & desc & out & Hv & Ha & _ & Hl). simpl in *.
      split; [lia|]. right. rewrite Ha. by apply turn_add.
    + destruct Ht as (? & [->| ->] & _); auto.
  - pose proof (set_limit_turn (chosen s rest)) as Ht.
    destruct (menu_set_limit _) as [[[]|e] s']; simpl in *.
    + destruct Ht as (month & limit & out & Hm & Hlim & Ha & _ & Hl). simpl in *.
      split; [lia|]. right. rewrite Ha. by apply turn_limit.
    + destruct Ht as (? & [->| ->] & _); auto.
  - pose proof (menu_summary_turn clock (chosen s rest)) as Ht.
    destruct (menu_summary _ _) as [[[]|e] s']; simpl in *.
    + destruct Ht as [-> Hl]. split; [lia|]. by left.
    + destruct Ht as (-> & -> & _). auto.
  - unfold menu_months, sh_bind, call, months, bind, get_self, ret. simpl. split; [lia|by left].
  - simpl. auto.
  - simpl. split; [lia|by left].
Qed.


Lemma main_loop_runs fuel clock s :
  (length (stdin s) < fuel)%nat ->
  exists e s',
    main_loop fuel clock s = Some (e, s')
    /\ (e = Exit \/ e = EOFError \/ e = Hang)
    /\ rtc world_turn (state s) (state s').
Proof.
  revert s. induction fuel as [|fuel IH]; intros s Hlen; [lia|]. simpl.
  pose proof (menu_turn clock s) as Ht.
  destruct (menu clock s) as [[[]|e] s1].
  - destruct Ht as [Hl Hw].
    destruct (IH s1) as (e & s' & -> & He & Hr); [lia|].
    exists e, s'. split; [done|]. split; [done|].
    destruct Hw as [<-|Hw]; [done|]. by eapply rtc_l.
  - destruct Ht as [Hw He]. exists e, s1. rewrite Hw. done.
Qed.

Lemma main_loop_more_fuel fuel fuel' clock s r :
  main_loop fuel clock s = Some r -> (fuel <= fuel')%nat -> main_loop fuel' clock s = Some r.
Proof.
  revert fuel' s. induction fuel as [|fuel IH]; intros fuel' s; simpl; [done|].
  intros Hr Hf. destruct fuel' as [|fuel']; [lia|]. simpl.
  destruct (menu clock s) as [[[]|e] s1]; [|done]. apply IH; [done|lia].
Qed.

Lemma world_turn_step w w' : world_turn w w' -> step w w'.
Proof. intros [ttype amt dt desc w0 _|month limit w0 _ _]; constructor. Qed.

Lemma world_turn_session_ok w w' : world_turn w w' -> session_ok w -> session_ok w'.
Proof.
  intros Ht%world_turn_step (Hok & Hr & Hf).
  split; [|split].
  - by eapply step_store_ok.
  - by eapply step_restarts.
  - by rewrite (step_data_file _ _ Ht).
Qed.

Lemma world_turn_limits_ok w w' : world_turn w w' -> limits_ok w -> limits_ok w'.
Proof.
  unfold limits_ok. intros [ttype amt dt desc w0 Hv|month limit w0 Hm Hl] Hok.
  - by rewrite (add_transaction_Ok _ _ _ _ _ Hv), save_self.
  - rewrite (set_limit_Ok _ _ _ Hm), save_self. simpl.
    by apply map_Forall_insert_2.
Qed.

Lemma world_turn_other_files w w' path :
  world_turn w w' -> path <> data_file (self w) -> disk w' !! path = disk w !! path.
Proof.
  intros [ttype amt dt desc w0 Hv|month limit w0 Hm Hl] Hp.
  - rewrite (add_transaction_Ok _ _ _ _ _ Hv). by rewrite save_other_files.
  - rewrite (set_limit_Ok _ _ _ Hm). by rewrite save_other_files.
Qed.

Lemma init_session_ok (files : gmap string (file_text num)) :
  session_ok (snd (BudgetTracker_init DATA_FILE files)).
Proof.
  destruct (init_restarts DATA_FILE files) as (Hr & Hf & _).
  split; [|done]. apply load_store_ok. constructor.
Qed.

Lemma rtc_world_turn w w' (files : gmap string (file_text num)) :
  rtc world_turn w w' ->
  session_ok w -> elsewhere files w ->
  session_ok w' /\ elsewhere files w'
  /\ (limits_ok w -> limits_ok w').
Proof.
  induction 1 as [w|w w1 w' Ht _ IH]; [done|]. intros Hok He.
  assert (Hok1 : session_ok w1) by by eapply world_turn_session_ok.
  assert (He1 : elsewhere files w1).
  { intros path Hp. rewrite <- (He path Hp).
    apply world_turn_other_files; [done|]. destruct Hok as (_ & _ & ->). done. }
  destruct (IH Hok1 He1) as (? & ? & Hl). split; [done|]. split; [done|].
  intros Hw. apply Hl. by eapply world_turn_limits_ok.
Qed.

Lemma main_session clock (files : gmap string (file_text num)) lines :
  exists e s',
    main clock files lines = Some (e, s')
    /\ rtc world_turn (snd (BudgetTracker_init DATA_FILE files)) (state s').
Proof.
  unfold main.
  destruct (main_loop_runs (S (length lines)) clock (start files lines))
    as (e & s' & Hm & _ & Hr); [simpl; lia|].
  by exists e, s'.
Qed.

(** X13.  [prompt_float] hands back only a number that is not below
    zero: the number of the first line that [float] reads, once stripped,
    as such a number, every line before it having been turned down.  It
    never touches the store.  When no line left is good it does not
    return: the end of the input is caught like a bad line and the loop
    goes on for ever. *)
Theorem prompt_float_gate msg s :
  match prompt_float msg s with
  | (inl val, s') =>
      num_lt val num_zero = false
      /\ state s' = state s
      /\ exists skipped l,
           stdin s = skipped ++ l :: stdin s'
           /\ float_of_str (strip l) = Some val
           /\ Forall not_a_number skipped
  | (inr e, s') =>
      e = Hang /\ state s' = state s /\ Forall not_a_number (stdin s)
  end.
Proof.
  unfold prompt_float. pose proof (prompt_float_from_spec msg (stdin s)) as Hf.
  destruct (prompt_float_from msg (stdin s)) as [out [[val rest]|]]; simpl in *.
  - destruct Hf as (Hv & skipped & l & Hl & Hp & Hs). eauto 8.
  - done.
Qed.

(** X14.  [prompt_date] hands back only a text that [strptime] takes
    for the format asked: the first line that does, stripped, every line
    before it having been turned down.  It never touches the store.  When
    no line left is good, the end of the input ends the session with
    [EOFError]. *)
Theorem prompt_date_gate msg fmt s :
  match prompt_date msg fmt s with
  | (inl val, s') =>
      (exists v, strptime val fmt = Ok v)
      /\ (fmt = fmt_Y_m_d -> accepted_date val)
      /\ (fmt = fmt_Y_m -> accepted_month val)
      /\ state s' = state s
      /\ exists skipped l,
           stdin s = skipped ++ l :: stdin s'
           /\ val = strip l
           /\ Forall (fun l' => raises (strptime (strip l') fmt)) skipped
  | (inr e, s') =>
      e = EOFError /\ state s' = state s
      /\ Forall (fun l' => raises (strptime (strip l') fmt)) (stdin s)
  end.
Proof.
  unfold prompt_date. pose proof (prompt_date_from_spec msg fmt (stdin s)) as Hf.
  destruct (prompt_date_from msg fmt (stdin s)) as [out [[val rest]|]]; simpl in *.
  - destruct Hf as ([v Hv] & skipped & l & Hl & Hp & Hs).
    split; [eauto|]. split; [intros ->; eauto using strptime_date_inv|].
    split; [intros ->; eauto using strptime_month_inv|]. eauto 8.
  - done.
Qed.

(** X15.  On any files and any finite list of lines, [main] comes to one
    of three ends: it returns after the choice ["6"], it stops on
    [EOFError] at the end of the input, or it loops for ever inside
    [prompt_float]; no [ValueError] ever leaves it.  One turn more than
    there are lines is enough, and more turns change nothing. *)
Theorem main_ends clock (files : gmap string (file_text num)) lines :
  exists e s',
    main clock files lines = Some (e, s')
    /\ (e = Exit \/ e = EOFError \/ e = Hang)
    /\ (forall fuel, (length lines < fuel)%nat ->
          main_loop fuel clock (start files lines) = Some (e, s')).
Proof.
  unfold main.
  destruct (main_loop_runs (S (length lines)) clock (start files lines))
    as (e & s' & Hm & He & _); [simpl; lia|].
  exists e, s'. split; [done|]. split; [done|].
  intros fuel Hf. eapply main_loop_more_fuel; [exact Hm|lia].
Qed.

(** X16.  However a session of [main] ends, and whether the saves of
    its turns worked or not, the store then holds only valid transactions,
    the tracker still works on [budget_data.json], and no other file has
    been touched.  When that file can be written, starting the program
    again on the files gives the store back as it is. *)
Theorem session_store_sound clock (files : gmap string (file_text num)) lines :
  match main clock files lines with
  | Some (e, s') =>
      Forall valid_transaction (transactions (self (state s')))
      /\ data_file (self (state s')) = DATA_FILE
      /\ (write_fault DATA_FILE = None ->
          BudgetTracker_init DATA_FILE (disk (state s')) = (Ok tt, state s'))
      /\ (forall path, path <> DATA_FILE -> disk (state s') !! path = files !! path)
  | None => False
  end.
Proof.
  destruct (main_session clock files lines) as (e & s' & -> & Hr).
  destruct (rtc_world_turn _ _ files Hr) as ((Hok & Hre & Hf) & He & _).
  - apply init_session_ok.
  - intros path _. by destruct (init_restarts DATA_FILE files) as (_ & _ & ->).
  - unfold restarts, writable in Hre. rewrite Hf in Hre. done.
Qed.

(** X17.  Through the shell no limit below zero enters the store: when
    the data file holds none (or is absent, or is not a document), the
    store holds none at the end of the session, whatever is typed. *)
Theorem session_limits_nonnegative clock (files : gmap string (file_text num)) lines :
  (forall data, files !! DATA_FILE = Some (Json data) ->
     map_Forall (fun _ limit => num_lt limit num_zero = false)
       (default ∅ (doc_expense_limits data))) ->
  match main clock files lines with
  | Some (e, s') =>
      map_Forall (fun _ limit => num_lt limit num_zero = false)
        (expense_limits (self (state s')))
  | None => False
  end.
Proof.
  intros Hfiles. destruct (main_session clock files lines) as (e & s' & -> & Hr).
  destruct (rtc_world_turn _ _ files Hr) as (_ & _ & Hl).
  - apply init_session_ok.
  - intros path _. by destruct (init_restarts DATA_FILE files) as (_ & _ & ->).
  - apply Hl. unfold limits_ok, BudgetTracker_init, load, bind, get_self, read_file. simpl.
    destruct (files !! DATA_FILE) as [[|data]|] eqn:Hf; simpl; try apply map_Forall_empty.
    unfold try_except, bind, lift. simpl.
    destruct (Transactions_of_dicts _); simpl; [by apply Hfiles|apply map_Forall_empty].
Qed.

(** X18.  The choices ["1"] and ["2"] print an error only when [save]
    fails.  When the turn comes back, [add_transaction] has been called
    on an amount that is not below zero and a date that [strptime] takes,
    and the transaction is in the store.  Either the data file could be
    written, the call returned and the last line printed is
    ["Income added."] or ["Expense added."]; or it could not, the call
    raised in [save], and the last line is the error of the writing.
    Otherwise the input ended inside a prompt and the store is as it
    was. *)
Theorem menu_add_fails_only_in_save clock s l rest ttype added :
  stdin s = l :: rest ->
  (strip l = "1" /\ ttype = "income" /\ added = "Income added.")
  \/ (strip l = "2" /\ ttype = "expense" /\ added = "Expense added.") ->
  match menu clock s with
  | (inl _, s') =>
      exists amt dt desc out,
        valid ttype amt dt
        /\ state s' = snd (add_transaction ttype amt dt desc (state s))
        /\ transactions (self (state s'))
           = transactions (self (state s))
             ++ [{| type := ttype; amount := amt; date := dt; description := desc |}]
        /\ ((write_fault (data_file (self (state s))) = None
             /\ fst (add_transaction ttype amt dt desc (state s)) = Ok tt
             /\ stdout s' = stdout s ++ out ++ [Print added])
            \/ (write_fault (data_file (self (state s))) <> None
                /\ raises (fst (add_transaction ttype amt dt desc (state s)))
                /\ stdout s'
                   = stdout s ++ out
                     ++ [Print ("Error: " +:+ write_error (data_file (self (state s))))]))
  | (inr e, s') => state s' = state s /\ (e = Hang \/ e = EOFError)
  end.
Proof.
  intros Hs Hc. rewrite (menu_choice clock s l rest Hs).
  assert (Htag : tag ttype)
    by (destruct Hc as [(_ & -> & _)|(_ & -> & _)]; [by left|by right]).
  assert (Hadd :
    (if decide (strip l = "1") then add "income" "Income added."
     else if decide (strip l = "2") then add "expense" "Expense added."
     else if decide (strip l = "3") then menu_set_limit
     else if decide (strip l = "4") then menu_summary clock
     else if decide (strip l = "5") then menu_months
     else if decide (strip l = "6") then sh_bind (print "Bye.") (fun _ => stop Exit)
     else print "Invalid.") = add ttype added).
  { destruct Hc as [(Hl & -> & ->)|(Hl & -> & ->)]; rewrite Hl; done. }
  rewrite Hadd. pose proof (add_turn ttype added (chosen s rest) Htag) as Ht.
  destruct (add _ _ _) as [[[]|e] s'].
  - destruct Ht as (amt & dt & desc & out & Hv & Ha & Ho & _). simpl in *.
    exists amt, dt, desc, (menu_shown ++ out).
    split; [done|]. split; [done|].
    split; [by rewrite Ha, (add_transaction_Ok _ _ _ _ _ Hv), save_self|].
    rewrite Ho. unfold menu_shown. rewrite <- !app_assoc. simpl.
    rewrite (add_transaction_Ok _ _ _ _ _ Hv).
    destruct (write_fault (data_file (self (state s)))) as [f|] eqn:Hf.
    + right. split; [done|].
      assert (Hr : raises (fst (save
        {| self := {| data_file := data_file (self (state s));
                      transactions := transactions (self (state s)) ++
                        [{| type := ttype; amount := amt; date := dt;
                            description := desc |}];
                      expense_limits := expense_limits (self (state s)) |};
           disk := disk (state s) |}))).
      { apply save_raises. simpl. by rewrite Hf. }
      split; [done|]. by destruct (fst (save _)).
    + left. split; [done|]. rewrite save_writes by done. done.
  - destruct Ht as (? & ? & _). done.
Qed.

(** X19.  The choice ["3"] prints an error only when [save] fails, and
    never stores a limit below zero.  When the turn comes back,
    [set_limit] has been called on a month that [strptime] takes and a
    limit that is not below zero, and that limit is stored for that month.
    Either the data file could be written, the call returned and the last
    line printed is ["Limit set."]; or it could not, the call raised in
    [save], and the last line is the error of the writing.  Otherwise the
    input ended inside a prompt and the store is as it was. *)
Theorem menu_set_limit_fails_only_in_save clock s l rest :
  stdin s = l :: rest -> strip l = "3" ->
  match menu clock s with
  | (inl _, s') =>
      exists month limit out,
        accepted_month month
        /\ num_lt limit num_zero = false
        /\ state s' = snd (set_limit month limit (state s))
        /\ expense_limits (self (state s'))
           = <[month := limit]> (expense_limits (self (state s)))
        /\ ((write_fault (data_file (self (state s))) = None
             /\ fst (set_limit month limit (state s)) = Ok tt
             /\ stdout s' = stdout s ++ out ++ [Print "Limit set."])
            \/ (write_fault (data_file (self (state s))) <> None
                /\ raises (fst (set_limit month limit (state s)))
                /\ stdout s'
                   = stdout s ++ out
                     ++ [Print ("Error: " +:+ write_error (data_file (self (state s))))]))
  | (inr e, s') => state s' = state s /\ (e = Hang \/ e = EOFError)
  end.
Proof.
  intros Hs Hc. rewrite (menu_choice clock s l rest Hs), Hc. simpl.
  pose proof (set_limit_turn (chosen s rest)) as Ht.
  destruct (menu_set_limit _) as [[[]|e] s'].
  - destruct Ht as (month & limit & out & Hm & Hl & Ha & Ho & _). simpl in *.
    exists month, limit, (menu_shown ++ out).
    split; [done|]. split; [done|]. split; [done|].
    split; [by rewrite Ha, (set_limit_Ok _ _ _ Hm), save_self|].
    rewrite Ho. unfold menu_shown. rewrite <- !app_assoc. simpl.
    rewrite (set_limit_Ok _ _ _ Hm).
    destruct (write_fault (data_file (self (state s)))) as [f|] eqn:Hf.
    + right. split; [done|].
      assert (Hr : raises (fst (save
        {| self := {| data_file := data_file (self (state s));
                      transactions := transactions (self (state s));
                      expense_limits := <[month := limit]> (expense_limits (self (state s))) |};
           disk := disk (state s) |}))).
      { apply save_raises. simpl. by rewrite Hf. }
      split; [done|]. by destruct (fst (save _)).
    + left. split; [done|]. rewrite save_writes by done. done.
  - destruct Ht as (? & ? & _). done.
Qed.

(** X20.  A turn whose choice is none of ["1"], ["2"], ["3"] (a summary,
    the list of months, a choice that is not on the menu, the exit, or no
    line at all) leaves the store and the files as they were; and the
    choice ["6"] ends the session at once, the last line printed being
    ["Bye."] and the lines after it unread. *)
Theorem menu_reads_only clock s :
  (forall l rest, stdin s = l :: rest -> strip l ∉ ["1"; "2"; "3"]) ->
  state (snd (menu clock s)) = state s
  /\ (forall l rest, stdin s = l :: rest -> strip l = "6" ->
        fst (menu clock s) = inr Exit
        /\ stdin (snd (menu clock s)) = rest
        /\ exists out, stdout (snd (menu clock s)) = stdout s ++ out ++ [Print "Bye."]).
Proof.
  intros Hc. split.
  - destruct (stdin s) as [|l rest] eqn:Hs.
    { destruct (menu_eof clock s Hs) as [out ->]. done. }
    specialize (Hc l rest eq_refl). rewrite !not_elem_of_cons in Hc.
    destruct Hc as (Hc1 & Hc2 & Hc3 & _).
    rewrite (menu_choice clock s l rest Hs).
    rewrite (decide_False (P:=strip l = "1")), (decide_False (P:=strip l = "2")),
      (decide_False (P:=strip l = "3")) by done.
    repeat case_decide.
    + pose proof (menu_summary_turn clock (chosen s rest)) as Hq.
      destruct (menu_summary _ _) as [[[]|e] s']; simpl in *; tauto.
    + done.
    + done.
    + done.
  - intros l rest Hs H6. rewrite (menu_choice clock s l rest Hs), H6. simpl.
    split; [done|]. split; [done|].
    exists menu_shown. unfold menu_shown. by rewrite <- !app_assoc.
Qed.

End ShellFacts.

(** * More runs on concrete worlds *)

Section MorePlainRuns.
#[local] Existing Instance plain_files.

Example main_full_session :
  option_map (fun r => (fst r, transactions (self (state (snd r))),
                        expense_limits (self (state (snd r))) !! "2024-01"))
    (main june no_files
       ["1"; "abc"; "-3"; " 1000 "; "2024-13-01"; "2024-01-05"; "pay";
        "3"; "2024-01"; "300"; "4"; "2024-01"; "5"; "9"; "6"])
  = Some (Exit,
          [{| type := "income"; amount := 1000; date := "2024-01-05";
              description := "pay" |}],
          Some 300).
Proof. vm_compute. reflexivity. Qed.

Example main_hangs_in_prompt_float :
  option_map fst (main june no_files ["1"; "abc"]) = Some Hang.
Proof. vm_compute. reflexivity. Qed.

Example main_eof_in_prompt_date :
  option_map fst (main june no_files ["1"; "10"; "2024-13-01"]) = Some EOFError.
Proof. vm_compute. reflexivity. Qed.

Lemma set_limit_last_write_wins_witness :
  snd (set_limit "2024-01" 500 (snd (set_limit "2024-01" 300 w0)))
  = snd (set_limit "2024-01" 500 w0)
  /\ snd (set_limit "2024-01" 300 (snd (set_limit "2024-01" 300 w0)))
     = snd (set_limit "2024-01" 300 w0).
Proof.
  apply (set_limit_last_write_wins w0 "2024-01" 300 500).
  apply YYYY_MM_accepted. reflexivity.
Defined.

Lemma set_limit_months_commute_witness :
  transactions (self (snd (set_limit "2024-02" 500 (snd (set_limit "2024-01" 300 w0)))))
  = transactions (self (snd (set_limit "2024-01" 300 (snd (set_limit "2024-02" 500 w0)))))
  /\ (forall m,
        expense_limits
          (self (snd (set_limit "2024-02" 500 (snd (set_limit "2024-01" 300 w0))))) !! m
        = expense_limits
            (self (snd (set_limit "2024-01" 300 (snd (set_limit "2024-02" 500 w0))))) !! m)
  /\ expense_limits
       (self (snd (set_limit "2024-02" 500 (snd (set_limit "2024-01" 300 w0)))))
       !! "2024-01" = Some 300
  /\ expense_limits
       (self (snd (set_limit "2024-02" 500 (snd (set_limit "2024-01" 300 w0)))))
       !! "2024-02" = Some 500
  /\ (forall now month,
        fst (summary now month
               (snd (set_limit "2024-02" 500 (snd (set_limit "2024-01" 300 w0)))))
        = fst (summary now month
                 (snd (set_limit "2024-01" 300 (snd (set_limit "2024-02" 500 w0))))))
  /\ fst (months (snd (set_limit "2024-02" 500 (snd (set_limit "2024-01" 300 w0)))))
     = fst (months (snd (set_limit "2024-01" 300 (snd (set_limit "2024-02" 500 w0))))).
Proof.
  apply (set_limit_months_commute w0 "2024-01" "2024-02" 300 500).
  - apply YYYY_MM_accepted. reflexivity.
  - apply YYYY_MM_accepted. reflexivity.
  - discriminate.
Defined.

Lemma mutation_is_saved_witness :
  data_file (self wA1) = data_file (self w0)
  /\ disk wA1 !! data_file (self wA1) = Some (Json (document_of (self wA1)))
  /\ (forall path, path <> data_file (self w0) -> disk wA1 !! path = disk w0 !! path).
Proof.
  apply (mutation_is_saved w0 wA1). left.
  exists "income", 1000, "2024-01-05", "pay". reflexivity.
Defined.

Lemma mutation_survives_restart_witness :
  BudgetTracker_init (data_file (self wL)) (disk wL) = (Ok tt, wL).
Proof.
  apply (mutation_survives_restart w0 wL).
  - constructor.
  - right. exists "2024-01", 300. reflexivity.
Defined.

Lemma load_reads_document_witness :
  BudgetTracker_init DATA_FILE {[ DATA_FILE := Json docA ]}
  = (Ok tt,
     {| self := {| data_file := DATA_FILE;
                   transactions := of_dict <$> default [] (doc_transactions docA);
                   expense_limits := default ∅ (doc_expense_limits docA) |};
        disk := {[ DATA_FILE := Json docA ]} |}).
Proof.
  apply (load_reads_document DATA_FILE {[ DATA_FILE := Json docA ]} docA).
  - apply lookup_singleton_eq.
  - unfold well_formed, docA. simpl.
    apply List.Forall_cons; [|apply List.Forall_cons; [|apply List.Forall_nil]].
    + split; [by left|]. split; [reflexivity|].
      apply YYYY_MM_DD_accepted. reflexivity.
    + split; [by right|]. split; [reflexivity|].
      exists "2024", "1", "10". repeat split; vm_compute; congruence.
Defined.

Lemma add_transaction_other_month_witness :
  fst (summary "2024-06" (Some "2024-02")
         (snd (add_transaction "expense" 400 "2024-01-10" "rent" wA1)))
  = fst (summary "2024-06" (Some "2024-02") wA1).
Proof.
  apply (add_transaction_other_month wA1 "2024-06" "expense" 400 "2024-01-10" "rent"
           (Some "2024-02")).
  - split; [by right|]. split; [reflexivity|]. apply YYYY_MM_DD_accepted. reflexivity.
  - reflexivity.
Defined.

Lemma add_transaction_same_month_witness :
  exists r r',
    summary "2024-06" (Some "2024-01") wA1 = (Ok r, wA1)
    /\ fst (summary "2024-06" (Some "2024-01")
              (snd (add_transaction "expense" 400 "2024-01-10" "rent" wA1))) = Ok r'
    /\ s_limit r' = s_limit r
    /\ ("expense" = "income" ->
        s_expense r' = s_expense r
        /\ s_income r'
           = num_sum (counted "income" "2024-01" (transactions (self wA1)) ++ [400]))
    /\ ("expense" = "expense" ->
        s_income r' = s_income r
        /\ s_expense r'
           = num_sum (counted "expense" "2024-01" (transactions (self wA1)) ++ [400])).
Proof.
  apply (add_transaction_same_month wA1 "2024-06" "expense" 400 "2024-01-10" "rent"
           (Some "2024-01")).
  - split; [by right|]. split; [reflexivity|]. apply YYYY_MM_DD_accepted. reflexivity.
  - apply YYYY_MM_accepted. reflexivity.
  - reflexivity.
Defined.

Lemma set_limit_and_summary_witness :
  ("2024-02" <> "2024-01" ->
   fst (summary "2024-06" (Some "2024-02") (snd (set_limit "2024-01" 300 wA)))
   = fst (summary "2024-06" (Some "2024-02") wA))
  /\ exists r r',
       summary "2024-06" (Some "2024-01") wA = (Ok r, wA)
       /\ fst (summary "2024-06" (Some "2024-01") (snd (set_limit "2024-01" 300 wA))) = Ok r'
       /\ s_income r' = s_income r /\ s_expense r' = s_expense r
       /\ s_balance r' = s_balance r
       /\ s_limit r' = Some 300
       /\ s_status r'
          = (if num_le (s_expense r) 300 then "Within limit" else "Limit exceeded").
Proof.
  apply (set_limit_and_summary wA "2024-06" "2024-01" 300 (Some "2024-02")).
  apply YYYY_MM_accepted. reflexivity.
Defined.

Lemma listed_months_have_summaries_witness :
  (exists r, summary "2024-06" (Some "2024-01") wA = (Ok r, wA))
  /\ exists t, t ∈ transactions (self wA) /\ startswith (date t) "2024-01" = true.
Proof.
  apply (listed_months_have_summaries wA "2024-06" ["2024-01"] "2024-01").
  - repeat constructor.
  - vm_compute. reflexivity.
  - left.
Defined.

Lemma program_keeps_store_sound_witness :
  Forall valid_transaction (transactions (self wA))
  /\ (write_fault (data_file (self wA)) = None ->
      BudgetTracker_init (data_file (self wA)) (disk wA) = (Ok tt, wA)).
Proof. apply (program_keeps_store_sound wA). apply reachable_wA. Defined.

Lemma session_limits_nonnegative_witness :
  match main june no_files [" 3 "; "2024-13"; "2024-01"; "-5"; "300"; "6"] with
  | Some (e, s') =>
      map_Forall (fun _ limit => num_lt limit num_zero = false)
        (expense_limits (self (state s')))
  | None => False
  end.
Proof.
  apply (session_limits_nonnegative june no_files
           [" 3 "; "2024-13"; "2024-01"; "-5"; "300"; "6"]).
  intros data Hd. unfold no_files in Hd. rewrite lookup_empty in Hd. discriminate Hd.
Defined.

Lemma menu_add_fails_only_in_save_witness :
  match menu june session_add with
  | (inl _, s') =>
      exists amt dt desc out,
        valid "income" amt dt
        /\ state s' = snd (add_transaction "income" amt dt desc (state session_add))
        /\ transactions (self (state s'))
           = transactions (self (state session_add))
             ++ [{| type := "income"; amount := amt; date := dt; description := desc |}]
        /\ ((write_fault (data_file (self (state session_add))) = None
             /\ fst (add_transaction "income" amt dt desc (state session_add)) = Ok tt
             /\ stdout s' = stdout session_add ++ out ++ [Print "Income added."])
            \/ (write_fault (data_file (self (state session_add))) <> None
                /\ raises (fst (add_transaction "income" amt dt desc (state session_add)))
                /\ stdout s'
                   = stdout session_add ++ out
                     ++ [Print ("Error: " +:+
                                write_error (data_file (self (state session_add))))]))
  | (inr e, s') => state s' = state session_add /\ (e = Hang \/ e = EOFError)
  end.
Proof.
  apply (menu_add_fails_only_in_save june session_add "1"
           ["abc"; "1000"; "2024-01-05"; "pay"] "income" "Income added.").
  - reflexivity.
  - left. repeat split.
Defined.

Lemma menu_set_limit_fails_only_in_save_witness :
  match menu june session_limit with
  | (inl _, s') =>
      exists month limit out,
        accepted_month month
        /\ num_lt limit num_zero = false
        /\ state s' = snd (set_limit month limit (state session_limit))
        /\ expense_limits (self (state s'))
           = <[month := limit]> (expense_limits (self (state session_limit)))
        /\ ((write_fault (data_file (self (state session_limit))) = None
             /\ fst (set_limit month limit (state session_limit)) = Ok tt
             /\ stdout s' = stdout session_limit ++ out ++ [Print "Limit set."])
            \/ (write_fault (data_file (self (state session_limit))) <> None
                /\ raises (fst (set_limit month limit (state session_limit)))
                /\ stdout s'
                   = stdout session_limit ++ out
                     ++ [Print ("Error: " +:+
                                write_error (data_file (self (state session_limit))))]))
  | (inr e, s') => state s' = state session_limit /\ (e = Hang \/ e = EOFError)
  end.
Proof.
  apply (menu_set_limit_fails_only_in_save june session_limit " 3 "
           ["2024-13"; "2024-01"; "-5"; "300"]).
  - reflexivity.
  - reflexivity.
Defined.

Lemma menu_reads_only_witness :
  state (snd (menu june session_exit)) = state session_exit
  /\ (forall l rest, stdin session_exit = l :: rest -> strip l = "6" ->
        fst (menu june session_exit) = inr Exit
        /\ stdin (snd (menu june session_exit)) = rest
        /\ exists out,
             stdout (snd (menu june session_exit))
             = stdout session_exit ++ out ++ [Print "Bye."]).
Proof.
  apply (menu_reads_only june session_exit).
  intros l rest [= <- <-]. rewrite !not_elem_of_cons.
  repeat split; try discriminate. apply not_elem_of_nil.
Defined.

Lemma add_transaction_unsaved_witness :
  fst (add_transaction "income" 1 "2024-01-05" "gift" w_unnamed) = Raise OSError
  /\ transactions (self (snd (add_transaction "income" 1 "2024-01-05" "gift" w_unnamed)))
     = transactions (self w_unnamed)
       ++ [{| type := "income"; amount := 1; date := "2024-01-05";
              description := "gift" |}]
  /\ disk (snd (add_transaction "income" 1 "2024-01-05" "gift" w_unnamed))
     = disk w_unnamed
  /\ BudgetTracker_init
       (data_file (self (snd (add_transaction "income" 1 "2024-01-05" "gift" w_unnamed))))
       (disk (snd (add_transaction "income" 1 "2024-01-05" "gift" w_unnamed)))
     = (Ok tt, w_unnamed).
Proof.
  apply (add_transaction_unsaved w_unnamed "income" 1 "2024-01-05" "gift" OSError).
  - split; [by left|]. split; [reflexivity|]. apply YYYY_MM_DD_accepted. reflexivity.
  - reflexivity.
  - reflexivity.
Defined.

End MorePlainRuns.

(** * Runs on a disk that is full *)

Section FullDiskRuns.
#[local] Existing Instance full_disk.

(** The call raises after the transaction has been appended, and the data
    file is left with text that is not JSON. *)
Example add_transaction_on_full_disk :
  add_transaction "income" 1000 "2024-01-05" "pay" w0
  = (Raise OSError,
     {| self := {| data_file := DATA_FILE;
                   transactions :=
                     [{| type := "income"; amount := 1000; date := "2024-01-05";
                         description := "pay" |}];
                   expense_limits := ∅ |};
        disk := {[ DATA_FILE := NotJson ]} |}).
Proof. vm_compute. reflexivity. Qed.

(** The store is ahead of the file: it holds two transactions, and a
    tracker constructed on the files holds none. *)
Example restart_on_full_disk :
  length (transactions (self wA_full_disk)) = 2%nat
  /\ self (snd (BudgetTracker_init DATA_FILE (disk wA_full_disk)))
     = empty_tracker DATA_FILE.
Proof. split; vm_compute; reflexivity. Qed.

Lemma save_broken_off_witness :
  fst (save w0) = Raise OSError
  /\ self (snd (save w0)) = self w0
  /\ disk (snd (save w0)) !! data_file (self w0) = Some NotJson
  /\ BudgetTracker_init (data_file (self w0)) (disk (snd (save w0)))
     = (Ok tt, {| self := empty_tracker (data_file (self w0));
                  disk := disk (snd (save w0)) |}).
Proof. apply (save_broken_off w0 OSError). reflexivity. Defined.

(** The shell prints the error after the three prompts of the turn and
    goes on to the next turn. *)
Example main_on_full_disk :
  option_map (fun r => (fst r, stdout (snd r) !! 11%nat, last (stdout (snd r)),
                        length (transactions (self (state (snd r))))))
    (main june no_files ["1"; "1000"; "2024-01-05"; "pay"; "6"])
  = Some (Exit, Some (Print "Error: cannot write budget_data.json"),
          Some (Print "Bye."), 1%nat).
Proof. vm_compute. reflexivity. Qed.

End FullDiskRuns.
